(** * The websocket relay client of cmd/wsclient/main.go

    A shallow embedding of the session engine of the relay client: the wire
    structures [CloudRequest], [CloudResponse] and [Message], the handler
    factory and its three handlers, the cached model listing, the session loop
    [Run] with its helpers, and the connect-and-run driver [main].

    The collaborators of the program (the websocket connection, the heartbeat
    ticker, the clock, the uuid generator, the Ollama backend, the dialer) are
    interfaces in the source; they are modelled by a [World] of scripted
    answers.  What the program does to them is recorded in the [State]: the
    frames written, the log lines, the sleeps, the backend calls. *)

From Stdlib Require Import ZArith List String Ascii Bool Lia.
From stdpp Require Import gmap strings.
Import ListNotations.

(** ** Go errors *)

(** The [error] values the program creates or receives.  [NetError] stands for
    any value that implements [net.Error]; [WrapError p e] is what
    [fmt.Errorf(p + ": %w", e)] builds. *)
Inductive error : Type :=
| NetError (timeout : bool) (text : string)
| PlainError (text : string)
| WrapError (prefix : string) (cause : error).

(** The type assertion [err.(net.Error)] followed by [Timeout()].  A type
    assertion looks at the dynamic type of the value itself and does not
    unwrap, so a [WrapError] around a [NetError] is not a [net.Error]. *)
Definition as_net_Error (e : error) : option bool :=
  match e with
  | NetError t _ => Some t
  | PlainError _ | WrapError _ _ => None
  end.

(** ** Wire structures *)

Record ChatMessage : Type := { Role : string; Content : string }.

Record Params : Type := { ModelName : string; Messages : list ChatMessage }.

Record CloudRequest : Type := {
  req_Type : string;
  req_Action : string;
  req_RequestID : string;
  req_Params : Params
}.

(** One element of the [[]map[string]string] built by [ListModels]: a map
    with exactly the keys [model_name] and [status]. *)
Record ModelEntry : Type := { model_name : string; status : string }.

(** The values that flow through [interface{}] and [any] in this program. *)
Inductive any : Type :=
| AnyNil
| AnyModels (models : list ModelEntry)
| AnyChatReply (role content : string)
| AnyOther (tag : string).

Record CloudResponse : Type := {
  resp_Type : string;
  resp_Action : string;
  resp_RequestID : string;
  resp_Data : any;
  resp_Status : string
}.

Record Message : Type := {
  Raw : string;
  Request : option CloudRequest;
  Response : option CloudResponse
}.

Definition no_params : Params := {| ModelName := ""; Messages := [] |}.

(** [&CloudResponse{}] *)
Definition empty_response : CloudResponse :=
  {| resp_Type := ""; resp_Action := ""; resp_RequestID := "";
     resp_Data := AnyNil; resp_Status := "" |}.

(** ** The codec libraries

    [gjson] and [encoding/json] are libraries outside the repository.  The
    program uses two observations of [gjson.ParseBytes(raw).Get(key)]:
    [Exists()] and [String()]; [gjson_Get raw key] is [Some s] when the key
    exists, with [s] its [String()], and [None] when it does not (then
    [String()] is empty).  [json_quote] is the string encoder of
    [json.Marshal]. *)
Record Codec : Type := {
  gjson_Get : string -> string -> option string;
  json_quote : string -> string
}.

Definition Exists (r : option string) : bool :=
  match r with Some _ => true | None => false end.

Definition String_ (r : option string) : string :=
  match r with Some s => s | None => "" end.

Section Marshal.
Variable lib : Codec.

Definition json_field (key value : string) : string :=
  json_quote lib key +:+ ":" +:+ value.

Definition json_object (fields : list string) : string :=
  "{" +:+ String.concat "," fields +:+ "}".

Definition json_array (items : list string) : string :=
  "[" +:+ String.concat "," items +:+ "]".

(** A field tagged [omitempty] is left out when it is the empty string (or
    the empty slice). *)
Definition omitempty (key value : string) : list string :=
  if String.eqb value "" then [] else [json_field key (json_quote lib value)].

Definition marshal_ChatMessage (m : ChatMessage) : string :=
  json_object [json_field "role" (json_quote lib (Role m));
               json_field "content" (json_quote lib (Content m))].

Definition marshal_Params (p : Params) : string :=
  json_object
    (omitempty "model_name" (ModelName p) ++
     match Messages p with
     | [] => []
     | ms => [json_field "messages" (json_array (map marshal_ChatMessage ms))]
     end).

(** [json.Marshal] of a [*CloudRequest]: fields in declaration order. *)
Definition marshal_CloudRequest (r : CloudRequest) : string :=
  json_object
    ([json_field "type" (json_quote lib (req_Type r));
      json_field "action" (json_quote lib (req_Action r))] ++
     omitempty "request_id" (req_RequestID r) ++
     [json_field "params" (marshal_Params (req_Params r))]).

(** A map is written with its keys sorted. *)
Definition marshal_ModelEntry (m : ModelEntry) : string :=
  json_object [json_field "model_name" (json_quote lib (model_name m));
               json_field "status" (json_quote lib (status m))].

(** The slice of models is only ever built by [append] on a nil slice, so
    the empty list is the nil slice, which is written [null]. *)
Definition marshal_any (d : any) : string :=
  match d with
  | AnyNil => "null"
  | AnyModels [] => "null"
  | AnyModels ms => json_array (map marshal_ModelEntry ms)
  | AnyChatReply role content =>
      json_object
        [json_field "message"
           (json_object [json_field "content" (json_quote lib content);
                         json_field "role" (json_quote lib role)])]
  | AnyOther tag => json_quote lib tag
  end.

(** [json.Marshal] of a [*CloudResponse]. *)
Definition marshal_CloudResponse (r : CloudResponse) : string :=
  json_object
    ([json_field "type" (json_quote lib (resp_Type r));
      json_field "action" (json_quote lib (resp_Action r))] ++
     omitempty "request_id" (resp_RequestID r) ++
     [json_field "data" (marshal_any (resp_Data r))] ++
     omitempty "status" (resp_Status r)).
End Marshal.

(** ** The world and the observable state *)

Inductive Level : Type := INFO | ERROR.

Inductive LogArg : Type := ArgErr (e : error) | ArgStr (s : string).

(** One call of [logger.Info] or [logger.Error]: the message and its
    key/value arguments. *)
Record LogEntry : Type := {
  log_level : Level;
  log_msg : string;
  log_args : list (string * LogArg)
}.

(** [time.Duration] and [UnixNano] times are counted in nanoseconds.  The
    ticker of [Run] fires every [heartbeatInterval]; the model is told by the
    script whether a tick is waiting. *)
Definition Second : Z := 1000000000.
Definition heartbeatInterval : Z := 30 * Second.
Definition readTimeout : Z := 40 * Second.

(** The scripted collaborators.  Everything the session loop asks of the
    connection, the ticker, the clock and the backend during iteration [k] is
    answered by the [k]-th entry of the script; dial attempts are numbered
    separately.  [env_wire k] is what the wire holds for a read in iteration
    [k]: a message, or the error the read runs into.  What the read returns
    is another matter, see [env_read] below. *)
Record World : Type := {
  env_stdin : string;
  env_dial : nat -> option error;
  env_client : option error;
  env_deadline : nat -> option error;
  env_tick : nat -> bool;
  env_wire : nat -> string + error;
  env_write : nat -> string -> option error;
  env_uuid : nat -> string;
  env_now : nat -> Z;
  env_list : nat -> list (string * string) + error;
  env_chat : nat -> string -> list ChatMessage -> string * option error
}.

(** *** The connection behind [WebSocketClient]

    [WebSocketClient.ReadMessage] is [conn.ReadMessage()] of
    gorilla/websocket, a library outside the repository.  Its connection
    keeps the first read error for good ([readErr]): once a read has failed,
    a timeout included, every later read returns that same error without
    looking at the wire.  It counts the reads that end in an error
    ([readErrCount]) and panics on the 1000th. *)

Record Conn : Type := { readErr : option error; readErrCount : nat }.

Definition fresh_conn : Conn := {| readErr := None; readErrCount := 0 |}.

Inductive ReadOutcome : Type :=
| Delivered (message : string)   (* the read returns a message *)
| Failed (err : error)           (* the read returns an error *)
| ReadPanics.                    (* the read panics *)

(** The end of [NextReader] on a connection whose [readErr] is [err]. *)
Definition count_failure (err : error) (c : Conn) : ReadOutcome * Conn :=
  let n := S (readErrCount c) in
  (if (1000 <=? n)%nat then ReadPanics else Failed err,
   {| readErr := Some err; readErrCount := n |}).

(** One call of [conn.ReadMessage()], [wire] being what the wire holds. *)
Definition conn_ReadMessage (wire : string + error) (c : Conn) : ReadOutcome * Conn :=
  match readErr c with
  | Some err => count_failure err c
  | None =>
      match wire with
      | inl message => (Delivered message, c)
      | inr err => count_failure err c
      end
  end.

(** The session loop reads in an iteration when it has armed the deadline
    and no tick is waiting. *)
Definition reads_in (w : World) (k : nat) : bool :=
  match env_deadline w k with
  | Some _ => false
  | None => negb (env_tick w k)
  end.

(** The connection as iteration [k] of the session finds it: fresh at
    iteration 0, then as the reads of the iterations before [k] left it. *)
Fixpoint conn_at (w : World) (k : nat) : Conn :=
  match k with
  | O => fresh_conn
  | S j =>
      if reads_in w j
      then snd (conn_ReadMessage (env_wire w j) (conn_at w j))
      else conn_at w j
  end.

(** What a read in iteration [k] does. *)
Definition read_outcome (w : World) (k : nat) : ReadOutcome :=
  fst (conn_ReadMessage (env_wire w k) (conn_at w k)).

(** What a read in iteration [k] returns: the message, or the error of the
    connection (also where the read panics instead of returning it). *)
Definition env_read (w : World) (k : nat) : string + error :=
  match conn_ReadMessage (env_wire w k) (conn_at w k) with
  | (Delivered message, _) => inl message
  | (Failed err, _) => inr err
  | (ReadPanics, c) =>
      inr (match readErr c with Some err => err | None => PlainError "" end)
  end.

(** An entry of the go-cache store. *)
Record Item : Type := { Object : any; Expiration : Z }.

(** The three implementations of the interface [RequestHandler]. *)
Inductive RequestHandler : Type :=
| ListModelHandler
| ChatHandler
| DefaultHandler.

Record State : Type := {
  iter : nat;                                    (* loop iterations completed *)
  dials : nat;                                   (* calls of Connect *)
  sent : list string;                            (* frames written, oldest first *)
  logs : list LogEntry;                          (* log lines, oldest first *)
  sleeps : list Z;                               (* durations of time.Sleep *)
  cache : gmap string Item;                      (* the MemoryCache store *)
  list_calls : nat;                              (* calls of client.List *)
  handled : list (RequestHandler * CloudRequest); (* calls of Handle *)
  closed : bool                                  (* Close has been called *)
}.

Definition initial_state : State :=
  {| iter := 0; dials := 0; sent := []; logs := []; sleeps := [];
     cache := ∅; list_calls := 0; handled := []; closed := false |}.

Definition next_iter (st : State) : State :=
  {| iter := S (iter st); dials := dials st; sent := sent st; logs := logs st;
     sleeps := sleeps st; cache := cache st; list_calls := list_calls st;
     handled := handled st; closed := closed st |}.

Definition add_dial (st : State) : State :=
  {| iter := iter st; dials := S (dials st); sent := sent st; logs := logs st;
     sleeps := sleeps st; cache := cache st; list_calls := list_calls st;
     handled := handled st; closed := closed st |}.

Definition add_sent (b : string) (st : State) : State :=
  {| iter := iter st; dials := dials st; sent := sent st ++ [b]; logs := logs st;
     sleeps := sleeps st; cache := cache st; list_calls := list_calls st;
     handled := handled st; closed := closed st |}.

Definition add_log (e : LogEntry) (st : State) : State :=
  {| iter := iter st; dials := dials st; sent := sent st; logs := logs st ++ [e];
     sleeps := sleeps st; cache := cache st; list_calls := list_calls st;
     handled := handled st; closed := closed st |}.

Definition add_sleep (d : Z) (st : State) : State :=
  {| iter := iter st; dials := dials st; sent := sent st; logs := logs st;
     sleeps := sleeps st ++ [d]; cache := cache st; list_calls := list_calls st;
     handled := handled st; closed := closed st |}.

Definition set_cache (c : gmap string Item) (st : State) : State :=
  {| iter := iter st; dials := dials st; sent := sent st; logs := logs st;
     sleeps := sleeps st; cache := c; list_calls := list_calls st;
     handled := handled st; closed := closed st |}.

Definition add_list_call (st : State) : State :=
  {| iter := iter st; dials := dials st; sent := sent st; logs := logs st;
     sleeps := sleeps st; cache := cache st; list_calls := S (list_calls st);
     handled := handled st; closed := closed st |}.

Definition add_handled (h : RequestHandler) (r : CloudRequest) (st : State) : State :=
  {| iter := iter st; dials := dials st; sent := sent st; logs := logs st;
     sleeps := sleeps st; cache := cache st; list_calls := list_calls st;
     handled := handled st ++ [(h, r)]; closed := closed st |}.

Definition set_closed (st : State) : State :=
  {| iter := iter st; dials := dials st; sent := sent st; logs := logs st;
     sleeps := sleeps st; cache := cache st; list_calls := list_calls st;
     handled := handled st; closed := true |}.

(** ** The monad of the program: state, and Go panics *)

Inductive PanicReason : Type :=
| NilDereference       (* invalid memory address or nil pointer dereference *)
| TypeAssertion        (* interface conversion *)
| RepeatedRead.        (* repeated read on failed websocket connection *)

Inductive Res (A : Type) : Type :=
| Val (a : A) (st : State)
| Panicked (why : PanicReason) (st : State).
Arguments Val {A} a st.
Arguments Panicked {A} why st.

Definition M (A : Type) : Type := State -> Res A.

#[global] Instance M_ret : MRet M := fun A a st => Val a st.

#[global] Instance M_bind : MBind M := fun A B f m st =>
  match m st with
  | Val a st' => f a st'
  | Panicked why st' => Panicked why st'
  end.

Definition panic {A : Type} (why : PanicReason) : M A := fun st => Panicked why st.

Definition get_state : M State := fun st => Val st st.

Definition modify (f : State -> State) : M unit := fun st => Val tt (f st).

(** The state a computation ends in, panicked or not. *)
Definition final_state {A : Type} (r : Res A) : State :=
  match r with Val _ st => st | Panicked _ st => st end.

Definition panicked {A : Type} (r : Res A) : bool :=
  match r with Val _ _ => false | Panicked _ _ => true end.

(** ** The program *)

Section Program.
Variable lib : Codec.
Variable w : World.

(** *** Logger and clock *)

Definition logger_Info (msg : string) (args : list (string * LogArg)) : M unit :=
  modify (add_log {| log_level := INFO; log_msg := msg; log_args := args |}).

Definition logger_Error (msg : string) (args : list (string * LogArg)) : M unit :=
  modify (add_log {| log_level := ERROR; log_msg := msg; log_args := args |}).

Definition time_Now : M Z := fun st => Val (env_now w (iter st)) st.

Definition time_Sleep (d : Z) : M unit := modify (add_sleep d).

(** *** MemoryCache, over go-cache

    [Set] with a positive duration stamps the entry with the time it runs
    out; the duration 0 stands for the default of [cache.New], 120 seconds.
    [Get] does not find an entry whose time has passed. *)

Definition defaultExpiration : Z := 120 * Second.

Definition MemoryCache_Get (key : string) : M (option any) :=
  now ← time_Now;
  st ← get_state;
  match cache st !! key with
  | None => mret None
  | Some item =>
      if (0 <? Expiration item)%Z && (Expiration item <? now)%Z
      then mret None
      else mret (Some (Object item))
  end.

Definition MemoryCache_Set (key : string) (value : any) (d : Z) : M unit :=
  now ← time_Now;
  let d' := if (d =? 0)%Z then defaultExpiration else d in
  let e := if (0 <? d')%Z then (now + d')%Z else 0%Z in
  st ← get_state;
  modify (set_cache (<[key := {| Object := value; Expiration := e |}]> (cache st))).

(** *** WebSocketClient *)

Definition Connect : M (option error) := fun st =>
  Val (env_dial w (dials st)) (add_dial st).

(** The deadline asked for does not enter the model: whether a read in
    iteration [k] times out is part of the script. *)
Definition SetReadDeadline (t : Z) : M (option error) := fun st =>
  Val (env_deadline w (iter st)) st.

Definition Close : M (option error) := fun st => Val None (set_closed st).

Definition ReadMessage : M (string + error) := fun st =>
  match read_outcome w (iter st) with
  | Delivered message => Val (inl message) st
  | Failed err => Val (inr err) st
  | ReadPanics => Panicked RepeatedRead st
  end.

Definition WriteMessage (message : string) : M (option error) := fun st =>
  match env_write w (iter st) message with
  | Some err => Val (Some err) st
  | None => Val None (add_sent message st)
  end.

(** *** DefaultOllamaClient *)

Definition client_List : M (list (string * string) + error) := fun st =>
  Val (env_list w (iter st)) (add_list_call st).

Definition Chat (modelName : string) (messages : list ChatMessage)
  : M (string * option error) := fun st =>
  Val (env_chat w (iter st) modelName messages) st.

Definition ListModels : M (list ModelEntry * option error) :=
  cached ← MemoryCache_Get "models";
  match cached with
  | Some (AnyModels models) => mret (models, None)
  | Some _ => panic TypeAssertion
  | None =>
      resp ← client_List;
      match resp with
      | inr err => mret ([], Some err)
      | inl models =>
          let data :=
            map (fun model => {| model_name := fst model; status := snd model |})
                models in
          MemoryCache_Set "models" (AnyModels data) (120 * Second);;
          mret (data, None)
      end
  end.

(** *** HandlerFactory and the handlers *)

Definition CreateHandler (action : string) : RequestHandler :=
  if String.eqb action "list_model" then ListModelHandler
  else if String.eqb action "chat" then ChatHandler
  else DefaultHandler.

Definition ChatHandler_Handle (req : CloudRequest)
  : M (option CloudResponse * option error) :=
  let messages :=
    map (fun msg => {| Role := Role msg; Content := Content msg |})
        (Messages (req_Params req)) in
  '(response, err) ← Chat (ModelName (req_Params req)) messages;
  match err with
  | Some e => mret (None, Some e)
  | None =>
      mret (Some {| resp_Type := "client_to_server";
                    resp_Action := req_Action req;
                    resp_RequestID := req_RequestID req;
                    resp_Data := AnyChatReply "assistant" response;
                    resp_Status := "done" |}, None)
  end.

Definition DefaultHandler_Handle (req : CloudRequest)
  : M (option CloudResponse * option error) :=
  mret (None, Some (PlainError ("未知的动作: " +:+ req_Action req))).

Definition ListModelHandler_Handle (req : CloudRequest)
  : M (option CloudResponse * option error) :=
  '(models, err) ← ListModels;
  match err with
  | Some e => mret (None, Some e)
  | None =>
      mret (Some {| resp_Type := "client_to_server";
                    resp_Action := req_Action req;
                    resp_RequestID := req_RequestID req;
                    resp_Data := AnyModels models;
                    resp_Status := "done" |}, None)
  end.

(** The call [handler.Handle(req)] through the interface; the call is
    recorded in [handled]. *)
Definition Handle (handler : RequestHandler) (req : CloudRequest)
  : M (option CloudResponse * option error) :=
  modify (add_handled handler req);;
  match handler with
  | ListModelHandler => ListModelHandler_Handle req
  | ChatHandler => ChatHandler_Handle req
  | DefaultHandler => DefaultHandler_Handle req
  end.

(** *** Server *)

Inductive RunResult : Type :=
| Running                   (* the loop has not returned *)
| Returned (err : error).   (* [Run] returned [err] *)

(** [json.Marshal] cannot fail on the values this program gives it, so the
    branch for its error is not modelled. *)
Definition sendHeartbeat : M (option error) :=
  st ← get_state;
  let requestID := env_uuid w (iter st) in
  let heartbeatReq :=
    {| req_Type := "heartbeat"; req_Action := "ping";
       req_RequestID := requestID; req_Params := no_params |} in
  let reqBytes := marshal_CloudRequest lib heartbeatReq in
  err ← WriteMessage reqBytes;
  match err with
  | Some e => mret (Some (WrapError "发送心跳消息失败" e))
  | None =>
      logger_Info "心跳已发送" [("request_id", ArgStr requestID)];;
      mret None
  end.

Definition sendResponse (msg : Message) : M (option error) :=
  let respBytes :=
    match Response msg with
    | Some resp => marshal_CloudResponse lib resp
    | None => "null"
    end in
  err ← WriteMessage respBytes;
  match err with
  | Some e => mret (Some (WrapError "WebSocket 写入消息错误" e))
  | None => mret None
  end.

Definition set_Response (msg : Message) (resp : option CloudResponse) : Message :=
  {| Raw := Raw msg; Request := Request msg; Response := resp |}.

Definition handleServerRequest (msg : Message) : M (option error) :=
  match Request msg with
  | None => mret (Some (PlainError "处理消息时发生错误: 请求为空"))
  | Some req =>
      if String.eqb (req_Action req) ""
      then mret (Some (PlainError "处理消息时发生错误: 动作为空"))
      else
        let handler := CreateHandler (req_Action req) in
        '(resp, err) ← Handle handler req;
        match err with
        | Some e => mret (Some e)
        | None => sendResponse (set_Response msg resp)
        end
  end.

Definition readAndParseMessage : M (Message + error) :=
  r ← ReadMessage;
  match r with
  | inr err => mret (inr (WrapError "WebSocket 读取消息错误" err))
  | inl rawMsg =>
      if Exists (gjson_Get lib rawMsg "request_id")
      then mret (inl {| Raw := rawMsg; Request := None;
                        Response := Some empty_response |})
      else
        let req :=
          {| req_Type := String_ (gjson_Get lib rawMsg "type");
             req_Action := String_ (gjson_Get lib rawMsg "action");
             req_RequestID := String_ (gjson_Get lib rawMsg "request_id");
             req_Params := no_params |} in
        mret (inl {| Raw := rawMsg; Request := Some req; Response := None |})
  end.

(** [msg.Request.Action] is evaluated before [CreateHandler] is called: on a
    nil [Request] the program panics there. *)
Definition processMessage (msg : Message) : M (option error) :=
  match Request msg with
  | None => panic NilDereference
  | Some req =>
      let handler := CreateHandler (req_Action req) in
      '(resp, err) ← Handle handler req;
      match err with
      | Some e => mret (Some (WrapError "处理请求失败" e))
      | None =>
          match resp with
          | None => mret (Some (PlainError "处理请求失败: 响应为空"))
          | Some _ => sendResponse (set_Response msg resp)
          end
      end
  end.

(** One pass through the body of the [for] loop of [Run]: [Some err] when
    the body executes [return err], [None] when it reaches the end of the
    body or a [continue]. *)
Definition Run_body : M (option error) :=
  now ← time_Now;
  d ← SetReadDeadline (now + readTimeout);
  match d with
  | Some err =>
      logger_Error "设置读取超时失败" [("error", ArgErr err)];;
      mret (Some err)
  | None =>
      st ← get_state;
      if env_tick w (iter st)
      then
        hb ← sendHeartbeat;
        match hb with
        | Some err => logger_Error "发送心跳失败" [("error", ArgErr err)]
        | None => mret tt
        end;;
        mret None
      else
        r ← readAndParseMessage;
        match r with
        | inr err =>
            match as_net_Error err with
            | Some true => logger_Info "读取超时，等待下次心跳" []
            | _ => logger_Error "处理消息时发生错误" [("error", ArgErr err)]
            end;;
            mret None
        | inl msg =>
            match Response msg with
            | None =>
                e ← handleServerRequest msg;
                match e with
                | Some err => logger_Error "处理服务端请求失败" [("error", ArgErr err)]
                | None => mret tt
                end;;
                mret None
            | Some _ =>
                e ← processMessage msg;
                match e with
                | Some err => logger_Error "处理客户端响应失败" [("error", ArgErr err)]
                | None => mret tt
                end;;
                mret None
            end
        end
  end.

(** [Run], for at most [fuel] iterations of its loop. *)
Fixpoint Run (fuel : nat) : M RunResult :=
  match fuel with
  | O => mret Running
  | S fuel' =>
      r ← Run_body;
      match r with
      | Some err => mret (Returned err)
      | None => modify next_iter;; Run fuel'
      end
  end.

(** *** main *)

Inductive MainResult : Type :=
| Exit (code : Z)       (* os.Exit(code) *)
| StillDialing          (* the connect loop has not ended *)
| StillRunning.         (* the session loop has not returned *)

(** The loop [for !connected], for at most [fuel] dial attempts: [true]
    once connected. *)
Fixpoint connect_loop (fuel : nat) : M bool :=
  match fuel with
  | O => mret false
  | S fuel' =>
      err ← Connect;
      match err with
      | None => mret true
      | Some e =>
          logger_Error "连接失败，正在重试..." [("error", ArgErr e)];;
          time_Sleep (5 * Second);;
          connect_loop fuel'
      end
  end.

(** [defer wsClient.Close()]: the call runs when the function returns and
    while a panic unwinds it.  The paths of [main] that end without a panic
    end in [os.Exit], which runs no deferred call; so the deferred [Close]
    runs exactly when what follows the [defer] panics. *)
Definition defer_Close {A : Type} (rest : M A) : M A := fun st =>
  match rest st with
  | Val a st' => Val a st'
  | Panicked why st' => Panicked why (final_state (Close st'))
  end.

Definition main (dial_fuel run_fuel : nat) : M MainResult :=
  logger_Info "请输入 WebSocket 地址 (例如 ws://localhost:8080/ws/ )" [];;
  if String.eqb (env_stdin w) ""
  then logger_Error "未提供有效的 WebSocket 地址" [];; mret (Exit 1)
  else
    connected ← connect_loop dial_fuel;
    if negb connected then mret StillDialing
    else
      defer_Close
        match env_client w with
        | Some err =>
            logger_Error "创建Ollama客户端失败" [("error", ArgErr err)];;
            mret (Exit 1)
        | None =>
            r ← Run run_fuel;
            match r with
            | Returned err =>
                logger_Error "服务器运行错误" [("error", ArgErr err)];;
                mret (Exit 1)
            | Running => mret StillRunning
            end
        end.

(** [sendListModelRequest] is defined in the source and called from nowhere. *)
Definition sendListModelRequest : M (option error) :=
  st ← get_state;
  let requestID := env_uuid w (iter st) in
  let request :=
    {| req_Type := "server_to_client"; req_Action := "list_model";
       req_RequestID := requestID; req_Params := no_params |} in
  let requestBytes := marshal_CloudRequest lib request in
  err ← WriteMessage requestBytes;
  match err with
  | Some e => mret (Some (WrapError "写入消息失败" e))
  | None =>
      logger_Info "已发送请求" [("request_id", ArgStr requestID)];;
      mret None
  end.
End Program.


(** ** A concrete codec, for running the program on concrete frames

    [flat_Get] reads a top-level key of a flat JSON object (string and bare
    scalar values, no nesting), scanning from the left and stopping at the
    first match without looking at what follows, as gjson does.  [plain_quote]
    puts a string between double quotes; it is the encoder of [json.Marshal]
    on strings that need no escape. *)

Definition dquote : ascii := ascii_of_nat 34.

Definition is_space (c : ascii) : bool := (nat_of_ascii c <=? 32)%nat.

Fixpoint skip_space (s : string) : string :=
  match s with
  | String c s' => if is_space c then skip_space s' else s
  | EmptyString => s
  end.

(** The text up to the closing quote, and what follows it. *)
Fixpoint scan_string (s : string) : option (string * string) :=
  match s with
  | EmptyString => None
  | String c s' =>
      if Ascii.eqb c dquote then Some (EmptyString, s')
      else match scan_string s' with
           | Some (body, rest) => Some (String c body, rest)
           | None => None
           end
  end.

(** A bare scalar: the text up to a comma, a closing brace or a blank. *)
Fixpoint scan_scalar (s : string) : string * string :=
  match s with
  | EmptyString => (EmptyString, s)
  | String c s' =>
      if Ascii.eqb c "," || Ascii.eqb c "}" || is_space c then (EmptyString, s)
      else let '(body, rest) := scan_scalar s' in (String c body, rest)
  end.

Definition scan_value (s : string) : option (string * string) :=
  match s with
  | EmptyString => None
  | String c s' =>
      if Ascii.eqb c dquote then scan_string s'
      else if Ascii.eqb c "{" || Ascii.eqb c "[" then None
      else Some (scan_scalar s)
  end.

Fixpoint find_member (fuel : nat) (key : string) (s : string) : option string :=
  match fuel with
  | O => None
  | S fuel' =>
      match skip_space s with
      | EmptyString => None
      | String c s1 =>
          if Ascii.eqb c "," then find_member fuel' key s1
          else if Ascii.eqb c dquote then
            match scan_string s1 with
            | None => None
            | Some (k, s2) =>
                match skip_space s2 with
                | String c2 s3 =>
                    if Ascii.eqb c2 ":" then
                      match scan_value (skip_space s3) with
                      | None => None
                      | Some (v, s4) =>
                          if String.eqb k key then Some v
                          else find_member fuel' key s4
                      end
                    else None
                | EmptyString => None
                end
            end
          else None
      end
  end.

Definition flat_Get (raw key : string) : option string :=
  match skip_space raw with
  | String c s =>
      if Ascii.eqb c "{" then find_member (String.length raw) key s else None
  | EmptyString => None
  end.

Definition plain_quote (s : string) : string :=
  String dquote s +:+ String dquote EmptyString.

Definition flat_codec : Codec :=
  {| gjson_Get := flat_Get; json_quote := plain_quote |}.

(** Frames are written below with apostrophes where the wire has double
    quotes; [frame] puts the double quotes back. *)
Fixpoint frame (s : string) : string :=
  match s with
  | EmptyString => EmptyString
  | String c s' =>
      String (if Ascii.eqb c "'" then dquote else c) (frame s')
  end.

(** ** Scripted worlds *)

(** The [k]-th answer of a script, and [rest] once the script is over. *)
Definition script {A : Type} (answers : list A) (rest : A) : nat -> A :=
  fun k => nth k answers rest.

Definition timeout_error : error := NetError true "i/o timeout".

Definition closed_error : error := PlainError "use of closed network connection".

(** A world in which everything works and nothing happens: dialing and
    writing succeed, no tick is waiting, every read times out, the backend
    knows one model. *)
Definition quiet_world : World :=
  {| env_stdin := "ws://localhost:8080/ws/";
     env_dial := fun _ => None;
     env_client := None;
     env_deadline := fun _ => None;
     env_tick := fun _ => false;
     env_wire := fun _ => inr timeout_error;
     env_write := fun _ _ => None;
     env_uuid := fun _ => "00000000-0000-4000-8000-000000000000";
     env_now := fun k => (Z.of_nat k * Second)%Z;
     env_list := fun _ => inl [("llama3", "abc123")];
     env_chat := fun _ _ _ => ("hello", None) |}.

Definition with_reads (reads : nat -> string + error) (w : World) : World :=
  {| env_stdin := env_stdin w; env_dial := env_dial w; env_client := env_client w;
     env_deadline := env_deadline w; env_tick := env_tick w; env_wire := reads;
     env_write := env_write w; env_uuid := env_uuid w; env_now := env_now w;
     env_list := env_list w; env_chat := env_chat w |}.

Definition with_ticks (ticks : nat -> bool) (w : World) : World :=
  {| env_stdin := env_stdin w; env_dial := env_dial w; env_client := env_client w;
     env_deadline := env_deadline w; env_tick := ticks; env_wire := env_wire w;
     env_write := env_write w; env_uuid := env_uuid w; env_now := env_now w;
     env_list := env_list w; env_chat := env_chat w |}.

Definition with_writes (writes : nat -> string -> option error) (w : World) : World :=
  {| env_stdin := env_stdin w; env_dial := env_dial w; env_client := env_client w;
     env_deadline := env_deadline w; env_tick := env_tick w; env_wire := env_wire w;
     env_write := writes; env_uuid := env_uuid w; env_now := env_now w;
     env_list := env_list w; env_chat := env_chat w |}.

Definition with_deadlines (deadlines : nat -> option error) (w : World) : World :=
  {| env_stdin := env_stdin w; env_dial := env_dial w; env_client := env_client w;
     env_deadline := deadlines; env_tick := env_tick w; env_wire := env_wire w;
     env_write := env_write w; env_uuid := env_uuid w; env_now := env_now w;
     env_list := env_list w; env_chat := env_chat w |}.

Definition with_dials (dials : nat -> option error) (w : World) : World :=
  {| env_stdin := env_stdin w; env_dial := dials; env_client := env_client w;
     env_deadline := env_deadline w; env_tick := env_tick w; env_wire := env_wire w;
     env_write := env_write w; env_uuid := env_uuid w; env_now := env_now w;
     env_list := env_list w; env_chat := env_chat w |}.

Definition with_list (list : nat -> list (string * string) + error) (w : World) : World :=
  {| env_stdin := env_stdin w; env_dial := env_dial w; env_client := env_client w;
     env_deadline := env_deadline w; env_tick := env_tick w; env_wire := env_wire w;
     env_write := env_write w; env_uuid := env_uuid w; env_now := env_now w;
     env_list := list; env_chat := env_chat w |}.

(** The frame of the round trip scenario, and the same request without its
    correlation id. *)
Definition list_model_r1 : string :=
  frame "{'type':'client_to_server','action':'list_model','request_id':'r1'}".

Definition list_model_plain : string :=
  frame "{'type':'client_to_server','action':'list_model'}".

Definition refused_error : error := PlainError "connection refused".

Definition backend_error : error := PlainError "ollama: connection refused".

(** The peer sends the round trip frame. *)
Definition world_r1 : World :=
  with_reads (script [inl list_model_r1] (inr timeout_error)) quiet_world.

(** The peer sends the same request without a correlation id. *)
Definition world_plain : World :=
  with_reads (script [inl list_model_plain] (inr timeout_error)) quiet_world.

(** As [world_plain], with the backend down. *)
Definition world_backend_down : World :=
  with_list (fun _ => inr backend_error) world_plain.

(** As [world_plain], with a connection that refuses every write. *)
Definition world_plain_unwritable : World :=
  with_writes (fun _ _ => Some closed_error) world_plain.

(** A tick is waiting at every iteration and every write fails. *)
Definition world_send_fails : World :=
  with_writes (fun _ _ => Some closed_error)
    (with_ticks (fun _ => true) quiet_world).

(** Dialing fails twice, then succeeds; the first read deadline cannot be
    armed. *)
Definition world_redial : World :=
  with_deadlines (fun _ => Some closed_error)
    (with_dials (script [Some refused_error; Some refused_error] None) quiet_world).

(** Dialing succeeds at once; the first read deadline cannot be armed. *)
Definition world_session_error : World :=
  with_deadlines (fun _ => Some closed_error) quiet_world.

(** No dial attempt ever succeeds. *)
Definition world_unreachable : World :=
  with_dials (fun _ => Some refused_error) quiet_world.

(** Bytes that are not JSON, then a heartbeat-class frame. *)
Definition world_garbage : World :=
  with_reads
    (script [inl "not json"; inl (frame "{'type':'heartbeat','action':'ping'}")]
            (inr timeout_error))
    quiet_world.

(** A frame cut off in the middle of an object. *)
Definition world_truncated : World :=
  with_reads (script [inl (frame "{'request_id':'r1'")] (inr timeout_error))
    quiet_world.

(** Three reads time out, then a tick is waiting. *)
Definition world_silence : World :=
  with_ticks (fun k => Nat.eqb k 3) quiet_world.

(** ** Vocabulary of the statements *)

Definition error_entry (msg : string) (err : error) : LogEntry :=
  {| log_level := ERROR; log_msg := msg; log_args := [("error", ArgErr err)] |}.

(** The frame [sendHeartbeat] writes for the correlation id [id]. *)
Definition heartbeat_frame (lib : Codec) (id : string) : string :=
  marshal_CloudRequest lib
    {| req_Type := "heartbeat"; req_Action := "ping";
       req_RequestID := id; req_Params := no_params |}.

(** The request [readAndParseMessage] builds from a frame without a
    [request_id] key. *)
Definition parsed_request (lib : Codec) (raw : string) : CloudRequest :=
  {| req_Type := String_ (gjson_Get lib raw "type");
     req_Action := String_ (gjson_Get lib raw "action");
     req_RequestID := String_ (gjson_Get lib raw "request_id");
     req_Params := no_params |}.

(** The test of [Run] that sends a message down the response path:
    [msg.Response != nil]. *)
Definition classified_as_Response (msg : Message) : bool :=
  match Response msg with Some _ => true | None => false end.

(** The correlation ids this side has issued: those of the heartbeats and
    requests it has sent, as its log records them. *)
Definition issued_ids (st : State) : list string :=
  flat_map
    (fun e =>
       if String.eqb (log_msg e) "心跳已发送" || String.eqb (log_msg e) "已发送请求"
       then match log_args e with
            | [(_, ArgStr id)] => [id]
            | _ => []
            end
       else [])
    (logs st).

(** The classification as the specification words it: a response carries a
    non-empty [request_id] that this side issued. *)
Definition spec_is_Response (issued : list string) (request_id : option string) : bool :=
  match request_id with
  | Some id => negb (String.eqb id "") && existsb (String.eqb id) issued
  | None => false
  end.

(** The first line [main] logs. *)
Definition banner : LogEntry :=
  {| log_level := INFO;
     log_msg := "请输入 WebSocket 地址 (例如 ws://localhost:8080/ws/ )";
     log_args := [] |}.

(** The listing [ListModels] builds from the models the backend reports. *)
Definition listing (models : list (string * string)) : list ModelEntry :=
  map (fun model => {| model_name := fst model; status := snd model |}) models.

(** The state of a fresh session after the handler of [list_model] has run
    once on the request of [list_model_plain], at time 0, against a backend
    that knows the model llama3. *)
Definition state_listed : State :=
  set_cache
    (<["models" := {| Object := AnyModels [{| model_name := "llama3"; status := "abc123" |}];
                     Expiration := 120 * Second |}]> ∅)
    (add_list_call
       (add_handled ListModelHandler (parsed_request flat_codec list_model_plain)
          initial_state)).

(** A state whose cache holds a listing that runs out after 100 seconds. *)
Definition state_cached : State :=
  set_cache
    (<["models" := {| Object := AnyModels [{| model_name := "phi3"; status := "ffff" |}];
                     Expiration := 100 * Second |}]> ∅)
    initial_state.

(** ** Vocabulary of the further properties *)

(** The response a handler builds on success: the channel label
    [client_to_server], the action and the correlation id of the request, the
    payload, and the status [done]. *)
Definition success_response (req : CloudRequest) (data : any) : CloudResponse :=
  {| resp_Type := "client_to_server";
     resp_Action := req_Action req;
     resp_RequestID := req_RequestID req;
     resp_Data := data;
     resp_Status := "done" |}.

(** The cache holds nothing but model listings under the key [models]: what
    the type assertion of [ListModels] relies on. *)
Definition cache_well_typed (st : State) : Prop :=
  forall item : Item,
    cache st !! "models" = Some item ->
    exists models : list ModelEntry, Object item = AnyModels models.

(** The frames the session loop writes: a heartbeat, or a response on the
    channel [client_to_server] with the status [done] and no correlation
    id. *)
Definition loop_frame (lib : Codec) (w : World) (f : string) : Prop :=
  (exists k : nat, f = heartbeat_frame lib (env_uuid w k)) \/
  (exists resp : CloudResponse,
     f = marshal_CloudResponse lib resp /\
     resp_Type resp = "client_to_server" /\
     resp_Status resp = "done" /\
     resp_RequestID resp = "").

(** The messages of the log lines the session loop writes. *)
Definition loop_messages : list string :=
  ["设置读取超时失败"; "心跳已发送"; "发送心跳失败"; "处理消息时发生错误";
   "处理服务端请求失败"].

(** In [n] iterations: at most [n] frames and [n] log lines were added, the
    frames are loop frames and the lines carry loop messages. *)
Definition outputs (lib : Codec) (w : World) (n : nat) (st st' : State) : Prop :=
  exists (frames : list string) (entries : list LogEntry),
    sent st' = sent st ++ frames /\
    logs st' = logs st ++ entries /\
    length frames <= n /\
    length entries <= n /\
    Forall (loop_frame lib w) frames /\
    Forall (fun e => In (log_msg e) loop_messages) entries.

(** The state [st], [k] iterations later. *)
Definition at_iter (k : nat) (st : State) : State :=
  Nat.iter k next_iter st.

Definition with_stdin (line : string) (w : World) : World :=
  {| env_stdin := line; env_dial := env_dial w; env_client := env_client w;
     env_deadline := env_deadline w; env_tick := env_tick w; env_wire := env_wire w;
     env_write := env_write w; env_uuid := env_uuid w; env_now := env_now w;
     env_list := env_list w; env_chat := env_chat w |}.

Definition with_client (client : option error) (w : World) : World :=
  {| env_stdin := env_stdin w; env_dial := env_dial w; env_client := client;
     env_deadline := env_deadline w; env_tick := env_tick w; env_wire := env_wire w;
     env_write := env_write w; env_uuid := env_uuid w; env_now := env_now w;
     env_list := env_list w; env_chat := env_chat w |}.

Definition with_uuids (uuids : nat -> string) (w : World) : World :=
  {| env_stdin := env_stdin w; env_dial := env_dial w; env_client := env_client w;
     env_deadline := env_deadline w; env_tick := env_tick w; env_wire := env_wire w;
     env_write := env_write w; env_uuid := uuids; env_now := env_now w;
     env_list := env_list w; env_chat := env_chat w |}.

(** The operator gives no address. *)
Definition world_no_address : World := with_stdin "" quiet_world.

(** The second dial connects, but the Ollama client cannot be created. *)
Definition world_no_client : World :=
  with_client (Some (PlainError "invalid OLLAMA_HOST"))
    (with_dials (script [Some refused_error] None) quiet_world).

(** Every read fails on a closed connection. *)
Definition world_closed : World :=
  with_reads (fun _ => inr closed_error) quiet_world.

(** A tick is waiting at every iteration; the ids drawn are [id-a], [id-b],
    then [id-c]. *)
Definition world_ticking : World :=
  with_uuids (script ["id-a"; "id-b"] "id-c")
    (with_ticks (fun _ => true) quiet_world).

(** The peer asks for a chat completion, with a model and a message in the
    params of its frame. *)
Definition chat_frame : string :=
  frame "{'type':'server_to_client','action':'chat','params':{'model_name':'llama3','messages':[{'role':'user','content':'hi'}]}}".

Definition world_chat : World :=
  with_reads (script [inl chat_frame] (inr timeout_error)) quiet_world.

(** The peer sends one [list_model] request after the other. *)
Definition world_busy : World :=
  with_reads (fun _ => inl list_model_plain) quiet_world.

(** Dialing succeeds at once; two reads time out; then the read deadline
    cannot be armed any more. *)
Definition world_session_breaks : World :=
  with_deadlines (script [None; None] (Some closed_error)) quiet_world.

(** A [list_model] request cut off before its closing brace. *)
Definition world_truncated_request : World :=
  with_reads (script [inl (frame "{'action':'list_model'")] (inr timeout_error))
    quiet_world.

(** A state whose cache holds, under [models], something that is no model
    listing. *)
Definition state_foreign_cache : State :=
  set_cache (<["models" := {| Object := AnyOther "intruder"; Expiration := 0 |}]> ∅)
    initial_state.

(** * Properties *)

Ltac unfold_M :=
  unfold mbind, M_bind, mret, M_ret, modify, get_state, panic in *.

Ltac unfold_io :=
  unfold SetReadDeadline, ReadMessage, WriteMessage, Connect, Close, client_List, Chat,
    time_Now, time_Sleep, logger_Info, logger_Error in *.

Section Session.
Variable lib : Codec.
Variable w : World.

(** ** Reads *)

Lemma env_read_delivered (k : nat) (raw : string) :
  env_read w k = inl raw -> read_outcome w k = Delivered raw.
Proof.
  unfold env_read, read_outcome.
  destruct (conn_ReadMessage (env_wire w k) (conn_at w k)) as [[m|e|] c]; cbn;
    congruence.
Qed.

Lemma read_outcome_delivered (k : nat) (raw : string) :
  read_outcome w k = Delivered raw -> env_read w k = inl raw.
Proof.
  unfold env_read, read_outcome.
  destruct (conn_ReadMessage (env_wire w k) (conn_at w k)) as [[m|e|] c]; cbn;
    congruence.
Qed.

(** ** The loop, one iteration at a time *)

Lemma Run_continue (fuel : nat) (st st' : State) :
  Run_body lib w st = Val None st' ->
  Run lib w (S fuel) st = Run lib w fuel (next_iter st').
Proof.
  intros Hbody. cbn [Run]. unfold_M. now rewrite Hbody.
Qed.

Lemma Run_return (fuel : nat) (st st' : State) (err : error) :
  Run_body lib w st = Val (Some err) st' ->
  Run lib w (S fuel) st = Val (Returned err) st'.
Proof.
  intros Hbody. cbn [Run]. unfold_M. now rewrite Hbody.
Qed.

Lemma Run_panic (fuel : nat) (st st' : State) (why : PanicReason) :
  Run_body lib w st = Panicked why st' ->
  Run lib w (S fuel) st = Panicked why st'.
Proof.
  intros Hbody. cbn [Run]. unfold_M. now rewrite Hbody.
Qed.

Lemma Run_body_deadline_error (st : State) (err : error) :
  env_deadline w (iter st) = Some err ->
  Run_body lib w st = Val (Some err) (add_log (error_entry "设置读取超时失败" err) st).
Proof.
  intros Hd. unfold Run_body. unfold_io. unfold_M. now rewrite Hd.
Qed.

(** The body returns from [Run] in one case only: the read deadline could not
    be armed. *)
Lemma Run_body_returns_only_on_deadline (st st' : State) (err : error) :
  Run_body lib w st = Val (Some err) st' ->
  env_deadline w (iter st) = Some err.
Proof.
  unfold Run_body, sendHeartbeat, readAndParseMessage. unfold_io. unfold_M.
  destruct (env_deadline w (iter st)) as [e|]; [congruence|].
  destruct (env_tick w (iter st)).
  - destruct (env_write w (iter st) _); discriminate.
  - destruct (read_outcome w (iter st)) as [raw|e|].
    + destruct (Exists (gjson_Get lib raw "request_id")); cbn [Response].
      * discriminate.
      * match goal with
        | |- context [handleServerRequest ?l ?v ?m ?s] =>
            destruct (handleServerRequest l v m s) as [[e|] ?|]; discriminate
        end.
    + destruct (as_net_Error _) as [[|]|]; discriminate.
    + discriminate.
Qed.

Lemma readAndParseMessage_read_error (st : State) (err : error) :
  read_outcome w (iter st) = Failed err ->
  readAndParseMessage lib w st = Val (inr (WrapError "WebSocket 读取消息错误" err)) st.
Proof.
  intros Hr. unfold readAndParseMessage. unfold_io. unfold_M. now rewrite Hr.
Qed.

Lemma readAndParseMessage_response (st : State) (raw : string) :
  env_read w (iter st) = inl raw ->
  Exists (gjson_Get lib raw "request_id") = true ->
  readAndParseMessage lib w st =
  Val (inl {| Raw := raw; Request := None; Response := Some empty_response |}) st.
Proof.
  intros Hr Hk. apply env_read_delivered in Hr.
  unfold readAndParseMessage. unfold_io. unfold_M. now rewrite Hr, Hk.
Qed.

Lemma readAndParseMessage_request (st : State) (raw : string) :
  env_read w (iter st) = inl raw ->
  Exists (gjson_Get lib raw "request_id") = false ->
  readAndParseMessage lib w st =
  Val (inl {| Raw := raw; Request := Some (parsed_request lib raw); Response := None |}) st.
Proof.
  intros Hr Hk. apply env_read_delivered in Hr.
  unfold readAndParseMessage. unfold_io. unfold_M. now rewrite Hr, Hk.
Qed.

(** A failed read of any kind is logged and the loop goes on.  The error that
    reaches the test for [net.Error] is the wrapped one, so the line logged
    is the ERROR line also for a timeout. *)
Lemma Run_body_read_error (st : State) (err : error) :
  env_deadline w (iter st) = None ->
  env_tick w (iter st) = false ->
  read_outcome w (iter st) = Failed err ->
  Run_body lib w st =
  Val None (add_log (error_entry "处理消息时发生错误"
                       (WrapError "WebSocket 读取消息错误" err)) st).
Proof.
  intros Hd Ht Hr. unfold Run_body. unfold_io. unfold_M. rewrite Hd, Ht.
  rewrite (readAndParseMessage_read_error _ _ Hr). reflexivity.
Qed.

(** The 1000th read on a failed connection takes the loop down. *)
Lemma Run_body_read_panic (st : State) :
  env_deadline w (iter st) = None ->
  env_tick w (iter st) = false ->
  read_outcome w (iter st) = ReadPanics ->
  Run_body lib w st = Panicked RepeatedRead st.
Proof.
  intros Hd Ht Hr. unfold Run_body, readAndParseMessage. unfold_io. unfold_M.
  now rewrite Hd, Ht, Hr.
Qed.

Lemma Run_body_response (st : State) (raw : string) :
  env_deadline w (iter st) = None ->
  env_tick w (iter st) = false ->
  env_read w (iter st) = inl raw ->
  Exists (gjson_Get lib raw "request_id") = true ->
  Run_body lib w st = Panicked NilDereference st.
Proof.
  intros Hd Ht Hr Hk. unfold Run_body. unfold_io. unfold_M. rewrite Hd, Ht.
  rewrite (readAndParseMessage_response _ _ Hr Hk). reflexivity.
Qed.

Lemma Run_body_request (st : State) (raw : string) :
  env_deadline w (iter st) = None ->
  env_tick w (iter st) = false ->
  env_read w (iter st) = inl raw ->
  Exists (gjson_Get lib raw "request_id") = false ->
  Run_body lib w st =
  match handleServerRequest lib w
          {| Raw := raw; Request := Some (parsed_request lib raw); Response := None |} st
  with
  | Val (Some err) st' => Val None (add_log (error_entry "处理服务端请求失败" err) st')
  | Val None st' => Val None st'
  | Panicked why st' => Panicked why st'
  end.
Proof.
  intros Hd Ht Hr Hk. unfold Run_body. unfold_io. unfold_M. rewrite Hd, Ht.
  rewrite (readAndParseMessage_request _ _ Hr Hk). cbn [Response].
  match goal with
  | |- context [handleServerRequest ?l ?v ?m ?s] =>
      destruct (handleServerRequest l v m s) as [[e|] st'|why st']; reflexivity
  end.
Qed.

Lemma Run_body_heartbeat (st : State) :
  env_deadline w (iter st) = None ->
  env_tick w (iter st) = true ->
  Run_body lib w st =
  match env_write w (iter st) (heartbeat_frame lib (env_uuid w (iter st))) with
  | None =>
      Val None
        (add_log {| log_level := INFO; log_msg := "心跳已发送";
                    log_args := [("request_id", ArgStr (env_uuid w (iter st)))] |}
           (add_sent (heartbeat_frame lib (env_uuid w (iter st))) st))
  | Some err =>
      Val None
        (add_log (error_entry "发送心跳失败" (WrapError "发送心跳消息失败" err)) st)
  end.
Proof.
  intros Hd Ht. unfold Run_body, sendHeartbeat, heartbeat_frame. unfold_io. unfold_M.
  rewrite Hd, Ht. destruct (env_write w (iter st) _); reflexivity.
Qed.

(** ** What a handler call touches *)

(** A call of [Handle] adds itself to [handled]; it writes no frame and no
    log line, whatever the backend answers and even if it panics. *)
Lemma Handle_effects (h : RequestHandler) (req : CloudRequest) (st : State) :
  let st' := final_state (Handle w h req st) in
  iter st' = iter st /\ sent st' = sent st /\ logs st' = logs st /\
  handled st' = handled st ++ [(h, req)].
Proof.
  unfold Handle, ListModelHandler_Handle, ChatHandler_Handle, DefaultHandler_Handle,
    ListModels, MemoryCache_Get, MemoryCache_Set.
  unfold_io. unfold_M. destruct h; cbn.
  - destruct (cache st !! "models") as [item|]; cbn.
    + destruct ((0 <? Expiration item)%Z && (Expiration item <? env_now w (iter st))%Z); cbn.
      * destruct (env_list w (iter st)); cbn; auto.
      * destruct (Object item) as [|[|]| |]; cbn; auto.
    + destruct (env_list w (iter st)); cbn; auto.
  - destruct (env_chat w (iter st) _ _) as [? [|]]; cbn; auto.
  - auto.
Qed.

Lemma sendResponse_ok (msg : Message) (resp : CloudResponse) (st : State) :
  Response msg = Some resp ->
  env_write w (iter st) (marshal_CloudResponse lib resp) = None ->
  sendResponse lib w msg st = Val None (add_sent (marshal_CloudResponse lib resp) st).
Proof.
  intros Hm Hw. unfold sendResponse. unfold_io. unfold_M. now rewrite Hm, Hw.
Qed.

Lemma sendResponse_error (msg : Message) (resp : CloudResponse) (st : State) (err : error) :
  Response msg = Some resp ->
  env_write w (iter st) (marshal_CloudResponse lib resp) = Some err ->
  sendResponse lib w msg st = Val (Some (WrapError "WebSocket 写入消息错误" err)) st.
Proof.
  intros Hm Hw. unfold sendResponse. unfold_io. unfold_M. now rewrite Hm, Hw.
Qed.

Lemma sendResponse_effects (msg : Message) (st : State) :
  let st' := final_state (sendResponse lib w msg st) in
  iter st' = iter st /\ logs st' = logs st /\ handled st' = handled st.
Proof.
  unfold sendResponse. unfold_io. unfold_M.
  destruct (env_write w (iter st) _); cbn; auto.
Qed.

Lemma handleServerRequest_empty_action (raw : string) (req : CloudRequest)
    (resp : option CloudResponse) (st : State) :
  req_Action req = "" ->
  handleServerRequest lib w {| Raw := raw; Request := Some req; Response := resp |} st =
  Val (Some (PlainError "处理消息时发生错误: 动作为空")) st.
Proof.
  intros Ha. unfold handleServerRequest. cbn [Request]. now rewrite Ha.
Qed.

Lemma handleServerRequest_dispatch (raw : string) (req : CloudRequest)
    (resp : option CloudResponse) (st : State) :
  req_Action req <> "" ->
  handleServerRequest lib w {| Raw := raw; Request := Some req; Response := resp |} st =
  match Handle w (CreateHandler (req_Action req)) req st with
  | Val (_, Some err) st' => Val (Some err) st'
  | Val (resp', None) st' =>
      sendResponse lib w {| Raw := raw; Request := Some req; Response := resp' |} st'
  | Panicked why st' => Panicked why st'
  end.
Proof.
  intros Ha. apply String.eqb_neq in Ha.
  unfold handleServerRequest. cbn [Request]. rewrite Ha. unfold_M.
  destruct (Handle w _ req st) as [[resp' [e|]] st'|why st']; reflexivity.
Qed.

Lemma handleServerRequest_effects (raw : string) (req : CloudRequest)
    (resp : option CloudResponse) (st : State) :
  req_Action req <> "" ->
  let st' := final_state
               (handleServerRequest lib w
                  {| Raw := raw; Request := Some req; Response := resp |} st) in
  iter st' = iter st /\ logs st' = logs st /\
  handled st' = handled st ++ [(CreateHandler (req_Action req), req)].
Proof.
  intros Ha. rewrite (handleServerRequest_dispatch _ _ _ _ Ha).
  pose proof (Handle_effects (CreateHandler (req_Action req)) req st) as He.
  destruct (Handle w _ req st) as [[resp' [e|]] st1|why st1]; cbn in He |- *.
  - tauto.
  - pose proof (sendResponse_effects
                  {| Raw := raw; Request := Some req; Response := resp' |} st1) as Hs.
    cbn in Hs. destruct Hs as (Hi & Hl & Hh). destruct He as (Hi' & _ & Hl' & Hh').
    rewrite Hi, Hl, Hh. auto.
  - tauto.
Qed.

(** No path through the body of the loop changes the iteration counter. *)
Lemma Run_body_iter (st : State) :
  iter (final_state (Run_body lib w st)) = iter st.
Proof.
  destruct (env_deadline w (iter st)) as [e|] eqn:Hd.
  { now rewrite (Run_body_deadline_error _ _ Hd). }
  destruct (env_tick w (iter st)) eqn:Ht.
  { rewrite (Run_body_heartbeat _ Hd Ht). destruct (env_write _ _ _); reflexivity. }
  destruct (read_outcome w (iter st)) as [raw|e|] eqn:Hr.
  2: { now rewrite (Run_body_read_error _ _ Hd Ht Hr). }
  2: { now rewrite (Run_body_read_panic _ Hd Ht Hr). }
  apply read_outcome_delivered in Hr.
  destruct (Exists (gjson_Get lib raw "request_id")) eqn:Hk.
  { now rewrite (Run_body_response _ _ Hd Ht Hr Hk). }
  rewrite (Run_body_request _ _ Hd Ht Hr Hk).
  destruct (String.eqb_spec (req_Action (parsed_request lib raw)) "") as [Ha|Ha].
  - now rewrite (handleServerRequest_empty_action _ _ _ _ Ha).
  - pose proof (handleServerRequest_effects raw (parsed_request lib raw) None st Ha) as He.
    cbv zeta in He. destruct He as (Hi & _).
    destruct (handleServerRequest _ _ _ st) as [[e|] st'|why st']; exact Hi.
Qed.

(** Iterations compose: once [N] iterations have left the loop running, the
    next [M] start from the state they reached. *)
Lemma Run_app (N M : nat) (st st' : State) :
  Run lib w N st = Val Running st' ->
  Run lib w (N + M) st = Run lib w M st'.
Proof.
  revert st. induction N as [|N IH]; intros st HN.
  - cbn in HN. unfold_M. now injection HN as ->.
  - cbn [Nat.add]. destruct (Run_body lib w st) as [[e|] s1|why s1] eqn:Hb.
    + rewrite (Run_return _ _ _ _ Hb) in HN. discriminate.
    + rewrite (Run_continue _ _ _ Hb) in HN. rewrite (Run_continue _ _ _ Hb).
      now apply IH.
    + rewrite (Run_panic _ _ _ _ Hb) in HN. discriminate.
Qed.

(** [Run] returns an error only if arming the read deadline reported it, in
    the iteration it returns from. *)
Lemma Run_returns_only_on_deadline (fuel : nat) (st st' : State) (err : error) :
  Run lib w fuel st = Val (Returned err) st' ->
  iter st <= iter st' /\ env_deadline w (iter st') = Some err.
Proof.
  revert st. induction fuel as [|fuel IH]; intros st Hrun.
  - discriminate.
  - pose proof (Run_body_iter st) as Hi.
    destruct (Run_body lib w st) as [[e|] s1|why s1] eqn:Hb; cbn in Hi.
    + rewrite (Run_return _ _ _ _ Hb) in Hrun. injection Hrun as -> ->.
      apply Run_body_returns_only_on_deadline in Hb. rewrite Hi. split; [lia|exact Hb].
    + rewrite (Run_continue _ _ _ Hb) in Hrun. apply IH in Hrun.
      cbn in Hrun. rewrite Hi in Hrun. split; [lia|tauto].
    + rewrite (Run_panic _ _ _ _ Hb) in Hrun. discriminate.
Qed.

(** ** The claims about the session loop *)

(** C1, amended.  The loop classifies a frame by the presence of the key
    [request_id] alone: a frame that carries the key, whatever its value and
    whoever issued it, is classified as a Response and no handler is invoked
    for it; a frame without the key is classified as a Request, and when its
    action is not empty it is dispatched: [Handle] is called once, on the
    handler [CreateHandler] resolves for the action. *)
Theorem classification_by_key_presence (st : State) (raw : string) :
  env_deadline w (iter st) = None ->
  env_tick w (iter st) = false ->
  env_read w (iter st) = inl raw ->
  exists msg : Message,
    readAndParseMessage lib w st = Val (inl msg) st /\
    classified_as_Response msg = Exists (gjson_Get lib raw "request_id") /\
    (classified_as_Response msg = true ->
       handled (final_state (Run_body lib w st)) = handled st) /\
    (classified_as_Response msg = false ->
       Request msg = Some (parsed_request lib raw) /\
       (req_Action (parsed_request lib raw) <> "" ->
        handled (final_state (Run_body lib w st)) =
        handled st ++ [(CreateHandler (req_Action (parsed_request lib raw)),
                        parsed_request lib raw)])).
Proof.
  intros Hd Ht Hr.
  destruct (Exists (gjson_Get lib raw "request_id")) eqn:Hk.
  - eexists. split; [apply (readAndParseMessage_response _ _ Hr Hk)|].
    split; [reflexivity|]. split; [|discriminate].
    intros _. now rewrite (Run_body_response _ _ Hd Ht Hr Hk).
  - eexists. split; [apply (readAndParseMessage_request _ _ Hr Hk)|].
    split; [reflexivity|]. split; [discriminate|].
    intros _. split; [reflexivity|]. intros Ha.
    rewrite (Run_body_request _ _ Hd Ht Hr Hk).
    pose proof (handleServerRequest_effects raw (parsed_request lib raw) None st Ha) as He.
    cbv zeta in He. destruct He as (_ & _ & Hh).
    destruct (handleServerRequest _ _ _ st) as [[e|] st'|why st']; exact Hh.
Qed.

(** C2.  A frame whose JSON contains the key [request_id] is parsed into a
    message with a nil [Request] and a non-nil [Response]; [processMessage]
    panics on such a message, dereferencing the nil [Request]; so the loop
    that reads the frame panics, however much fuel it is given. *)
Theorem response_path_panics (st : State) (raw : string) :
  env_deadline w (iter st) = None ->
  env_tick w (iter st) = false ->
  env_read w (iter st) = inl raw ->
  Exists (gjson_Get lib raw "request_id") = true ->
  exists msg : Message,
    readAndParseMessage lib w st = Val (inl msg) st /\
    Request msg = None /\ Response msg <> None /\
    (forall s : State, processMessage lib w msg s = Panicked NilDereference s) /\
    Run_body lib w st = Panicked NilDereference st /\
    (forall fuel : nat, Run lib w (S fuel) st = Panicked NilDereference st).
Proof.
  intros Hd Ht Hr Hk. eexists.
  split; [apply (readAndParseMessage_response _ _ Hr Hk)|].
  split; [reflexivity|]. split; [discriminate|]. split; [reflexivity|].
  pose proof (Run_body_response _ _ Hd Ht Hr Hk) as Hb.
  split; [exact Hb|]. intros fuel. now apply Run_panic.
Qed.

(** C3, amended.  An error returned while sending is not fatal.  When the
    heartbeat cannot be written, or when the response to a request cannot be
    written, the loop logs the error and goes on with its next iteration.
    [Run] returns only when the read deadline cannot be armed, and returns
    the error of that call. *)
Theorem send_errors_are_logged_and_survived :
  (forall (st : State) (err : error),
     env_deadline w (iter st) = None ->
     env_tick w (iter st) = true ->
     env_write w (iter st) (heartbeat_frame lib (env_uuid w (iter st))) = Some err ->
     forall fuel : nat,
       Run lib w (S fuel) st =
       Run lib w fuel
         (next_iter
            (add_log (error_entry "发送心跳失败" (WrapError "发送心跳消息失败" err)) st))) /\
  (forall (st st' : State) (raw : string) (resp : CloudResponse) (err : error),
     env_deadline w (iter st) = None ->
     env_tick w (iter st) = false ->
     env_read w (iter st) = inl raw ->
     Exists (gjson_Get lib raw "request_id") = false ->
     req_Action (parsed_request lib raw) <> "" ->
     Handle w (CreateHandler (req_Action (parsed_request lib raw)))
       (parsed_request lib raw) st = Val (Some resp, None) st' ->
     env_write w (iter st) (marshal_CloudResponse lib resp) = Some err ->
     forall fuel : nat,
       Run lib w (S fuel) st =
       Run lib w fuel
         (next_iter
            (add_log (error_entry "处理服务端请求失败"
                        (WrapError "WebSocket 写入消息错误" err)) st'))) /\
  (forall (fuel : nat) (st st' : State) (err : error),
     Run lib w fuel st = Val (Returned err) st' ->
     env_deadline w (iter st') = Some err).
Proof.
  split; [|split].
  - intros st err Hd Ht Hw fuel. apply Run_continue.
    rewrite (Run_body_heartbeat _ Hd Ht), Hw. reflexivity.
  - intros st st' raw resp err Hd Ht Hr Hk Ha Hh Hw fuel. apply Run_continue.
    rewrite (Run_body_request _ _ Hd Ht Hr Hk).
    rewrite (handleServerRequest_dispatch _ _ _ _ Ha), Hh.
    pose proof (Handle_effects (CreateHandler (req_Action (parsed_request lib raw)))
                  (parsed_request lib raw) st) as He.
    rewrite Hh in He. cbn in He. destruct He as (Hi & _).
    rewrite <- Hi in Hw.
    now rewrite (sendResponse_error
                   {| Raw := raw; Request := Some (parsed_request lib raw);
                      Response := Some resp |} resp st' err eq_refl Hw).
  - intros fuel st st' err Hrun.
    now apply Run_returns_only_on_deadline in Hrun.
Qed.

(** C7, amended.  The parser raises no decode error.  A frame in which gjson
    finds neither the key [request_id] nor an action, as in bytes that are
    not JSON, is decoded into a request with an empty action and an empty
    request id; the dispatch step refuses it because its action is empty,
    and the loop logs that one error, writes nothing, leaves the connection
    open and goes on with its next iteration. *)
Theorem frame_without_action_is_dropped (st : State) (raw : string) :
  env_deadline w (iter st) = None ->
  env_tick w (iter st) = false ->
  env_read w (iter st) = inl raw ->
  Exists (gjson_Get lib raw "request_id") = false ->
  String_ (gjson_Get lib raw "action") = "" ->
  readAndParseMessage lib w st =
    Val (inl {| Raw := raw; Request := Some (parsed_request lib raw);
                Response := None |}) st /\
  req_Action (parsed_request lib raw) = "" /\
  req_RequestID (parsed_request lib raw) = "" /\
  Run_body lib w st =
    Val None (add_log (error_entry "处理服务端请求失败"
                         (PlainError "处理消息时发生错误: 动作为空")) st) /\
  sent (final_state (Run_body lib w st)) = sent st /\
  closed (final_state (Run_body lib w st)) = closed st /\
  (forall fuel : nat,
     Run lib w (S fuel) st =
     Run lib w fuel
       (next_iter (add_log (error_entry "处理服务端请求失败"
                              (PlainError "处理消息时发生错误: 动作为空")) st))).
Proof.
  intros Hd Ht Hr Hk Ha.
  assert (Run_body lib w st =
          Val None (add_log (error_entry "处理服务端请求失败"
                               (PlainError "处理消息时发生错误: 动作为空")) st)) as Hb.
  { rewrite (Run_body_request _ _ Hd Ht Hr Hk).
    now rewrite (handleServerRequest_empty_action raw (parsed_request lib raw) None st Ha). }
  split; [apply (readAndParseMessage_request _ _ Hr Hk)|].
  split; [exact Ha|].
  split; [unfold parsed_request; cbn;
          now destruct (gjson_Get lib raw "request_id")|].
  split; [exact Hb|]. rewrite Hb. split; [reflexivity|]. split; [reflexivity|].
  intros fuel. now apply Run_continue.
Qed.

(** C8.  An action that is not registered resolves to the default handler,
    and the default handler answers every request with an error: it returns
    no response and does not panic. *)
Theorem unknown_action_resolves_to_default (action : string) :
  action <> "list_model" ->
  action <> "chat" ->
  CreateHandler action = DefaultHandler /\
  (forall (req : CloudRequest) (st : State),
     Handle w (CreateHandler action) req st =
     Val (None, Some (PlainError ("未知的动作: " +:+ req_Action req)))
         (add_handled DefaultHandler req st)).
Proof.
  intros Hl Hc. apply String.eqb_neq in Hl, Hc.
  assert (CreateHandler action = DefaultHandler) as Hh.
  { unfold CreateHandler. now rewrite Hl, Hc. }
  split; [exact Hh|]. intros req st. rewrite Hh. reflexivity.
Qed.

(** C9.  When the handler of an inbound request returns an error, the loop
    logs the error, writes no frame, and goes on with its next iteration. *)
Theorem handler_failure_is_logged_and_dropped
    (st st' : State) (raw : string) (resp : option CloudResponse) (err : error) :
  env_deadline w (iter st) = None ->
  env_tick w (iter st) = false ->
  env_read w (iter st) = inl raw ->
  Exists (gjson_Get lib raw "request_id") = false ->
  req_Action (parsed_request lib raw) <> "" ->
  Handle w (CreateHandler (req_Action (parsed_request lib raw)))
    (parsed_request lib raw) st = Val (resp, Some err) st' ->
  let st_end := add_log (error_entry "处理服务端请求失败" err) st' in
  Run_body lib w st = Val None st_end /\
  sent st_end = sent st /\
  logs st_end = logs st ++ [error_entry "处理服务端请求失败" err] /\
  (forall fuel : nat, Run lib w (S fuel) st = Run lib w fuel (next_iter st_end)).
Proof.
  intros Hd Ht Hr Hk Ha Hh st_end.
  assert (Run_body lib w st = Val None st_end) as Hb.
  { rewrite (Run_body_request _ _ Hd Ht Hr Hk).
    now rewrite (handleServerRequest_dispatch _ _ _ _ Ha), Hh. }
  pose proof (Handle_effects (CreateHandler (req_Action (parsed_request lib raw)))
                (parsed_request lib raw) st) as He.
  rewrite Hh in He. cbn in He. destruct He as (_ & Hs & Hl & _).
  split; [exact Hb|]. split; [exact Hs|].
  split; [subst st_end; cbn; now rewrite Hl|].
  intros fuel. now apply Run_continue.
Qed.

End Session.

(** ** The cached model listing *)

(** C10.  [ListModels] may answer from the cache.  When the cache holds a
    model listing, that listing is returned and the backend is not called:
    the state, with its count of backend calls, is unchanged.  When the cache
    holds nothing, the backend is called once, its models are turned into
    [model_name]/[status] entries, the entries are stored under the key
    [models] with a lifetime of 120 seconds from now, and the same entries are
    returned. *)
Theorem ListModels_uses_the_cache (w : World) (st : State) :
  (forall models : list ModelEntry,
     MemoryCache_Get w "models" st = Val (Some (AnyModels models)) st ->
     ListModels w st = Val (models, None) st /\
     list_calls (final_state (ListModels w st)) = list_calls st) /\
  (forall models : list (string * string),
     MemoryCache_Get w "models" st = Val None st ->
     env_list w (iter st) = inl models ->
     let st' :=
       set_cache
         (<["models" := {| Object := AnyModels (listing models);
                          Expiration := (env_now w (iter st) + 120 * Second)%Z |}]>
            (cache st))
         (add_list_call st) in
     ListModels w st = Val (listing models, None) st' /\
     list_calls st' = S (list_calls st) /\
     cache st' !! "models" =
       Some {| Object := AnyModels (listing models);
               Expiration := (env_now w (iter st) + 120 * Second)%Z |}).
Proof.
  split.
  - intros models Hget.
    assert (ListModels w st = Val (models, None) st) as H.
    { unfold ListModels. unfold_M. now rewrite Hget. }
    now rewrite H.
  - intros models Hget Hlist st'. split; [|split].
    + unfold ListModels. unfold_M. rewrite Hget.
      unfold client_List. rewrite Hlist.
      unfold MemoryCache_Set, time_Now. unfold_M. reflexivity.
    + reflexivity.
    + subst st'. cbn [cache set_cache]. apply lookup_insert_eq.
Qed.

(** ** The driver *)

Section Driver.
Variable lib : Codec.
Variable w : World.

(** What a handler call leaves alone: the dial count, the sleeps, the
    connection. *)
Lemma Handle_driver_trace (h : RequestHandler) (req : CloudRequest) (st : State) :
  let st' := final_state (Handle w h req st) in
  dials st' = dials st /\ sleeps st' = sleeps st /\ closed st' = closed st.
Proof.
  unfold Handle, ListModelHandler_Handle, ChatHandler_Handle, DefaultHandler_Handle,
    ListModels, MemoryCache_Get, MemoryCache_Set.
  unfold_io. unfold_M. destruct h; cbn.
  - destruct (cache st !! "models") as [item|]; cbn.
    + destruct ((0 <? Expiration item)%Z && (Expiration item <? env_now w (iter st))%Z); cbn.
      * destruct (env_list w (iter st)); cbn; auto.
      * destruct (Object item) as [|[|]| |]; cbn; auto.
    + destruct (env_list w (iter st)); cbn; auto.
  - destruct (env_chat w (iter st) _ _) as [? [|]]; cbn; auto.
  - auto.
Qed.

Lemma Run_body_driver_trace (st : State) :
  let st' := final_state (Run_body lib w st) in
  dials st' = dials st /\ sleeps st' = sleeps st /\ closed st' = closed st.
Proof.
  cbv zeta.
  destruct (env_deadline w (iter st)) as [e|] eqn:Hd.
  { now rewrite (Run_body_deadline_error _ _ _ _ Hd). }
  destruct (env_tick w (iter st)) eqn:Ht.
  { rewrite (Run_body_heartbeat _ _ _ Hd Ht). destruct (env_write _ _ _); auto. }
  destruct (read_outcome w (iter st)) as [raw|e|] eqn:Hr.
  2: { now rewrite (Run_body_read_error _ _ _ _ Hd Ht Hr). }
  2: { now rewrite (Run_body_read_panic _ _ _ Hd Ht Hr). }
  apply read_outcome_delivered in Hr.
  destruct (Exists (gjson_Get lib raw "request_id")) eqn:Hk.
  { now rewrite (Run_body_response _ _ _ _ Hd Ht Hr Hk). }
  rewrite (Run_body_request _ _ _ _ Hd Ht Hr Hk).
  destruct (String.eqb_spec (req_Action (parsed_request lib raw)) "") as [Ha|Ha].
  { now rewrite (handleServerRequest_empty_action _ _ _ _ _ _ Ha). }
  rewrite (handleServerRequest_dispatch _ _ _ _ _ _ Ha).
  pose proof (Handle_driver_trace (CreateHandler (req_Action (parsed_request lib raw)))
                (parsed_request lib raw) st) as He.
  destruct (Handle w _ _ st) as [[resp' [e|]] st1|why st1]; cbn in He |- *; auto.
  unfold sendResponse. unfold_io. unfold_M.
  destruct (env_write w (iter st1) _); cbn; auto.
Qed.

(** The session loop never dials, never sleeps and never closes the
    connection. *)
Lemma Run_driver_trace (fuel : nat) (st : State) :
  let st' := final_state (Run lib w fuel st) in
  dials st' = dials st /\ sleeps st' = sleeps st /\ closed st' = closed st.
Proof.
  cbv zeta. revert st. induction fuel as [|fuel IH]; intros st.
  - cbn. auto.
  - pose proof (Run_body_driver_trace st) as Hb. cbv zeta in Hb.
    destruct (Run_body lib w st) as [[e|] s1|why s1] eqn:Hbody; cbn in Hb.
    + now rewrite (Run_return _ _ _ _ _ _ Hbody).
    + rewrite (Run_continue _ _ _ _ _ Hbody).
      destruct (IH (next_iter s1)) as (Hd & Hs & Hc). cbn in Hd, Hs, Hc.
      rewrite Hd, Hs, Hc. exact Hb.
    + now rewrite (Run_panic _ _ _ _ _ _ Hbody).
Qed.

Lemma connect_loop_failure (fuel : nat) (st : State) (err : error) :
  env_dial w (dials st) = Some err ->
  connect_loop w (S fuel) st =
  connect_loop w fuel
    (add_sleep (5 * Second)
       (add_log (error_entry "连接失败，正在重试..." err) (add_dial st))).
Proof.
  intros Hd. cbn [connect_loop]. unfold_io. unfold_M. now rewrite Hd.
Qed.

Lemma connect_loop_success (fuel : nat) (st : State) :
  env_dial w (dials st) = None ->
  connect_loop w (S fuel) st = Val true (add_dial st).
Proof.
  intros Hd. cbn [connect_loop]. unfold_io. unfold_M. now rewrite Hd.
Qed.

(** After [n] failed attempts the next one connects: [n + 1] dials, and one
    sleep of five seconds after each failure. *)
Lemma connect_loop_connects (n : nat) :
  forall (fuel : nat) (st : State),
    (forall i : nat, i < n -> env_dial w (dials st + i) <> None) ->
    env_dial w (dials st + n) = None ->
    n < fuel ->
    exists st' : State,
      connect_loop w fuel st = Val true st' /\
      dials st' = dials st + S n /\
      sleeps st' = sleeps st ++ repeat (5 * Second)%Z n /\
      iter st' = iter st /\ sent st' = sent st.
Proof.
  induction n as [|n IH]; intros fuel st Hfail Hok Hfuel.
  - destruct fuel as [|fuel]; [lia|]. rewrite Nat.add_0_r in Hok.
    exists (add_dial st). rewrite (connect_loop_success _ _ Hok).
    cbn. rewrite app_nil_r. repeat split; lia.
  - destruct fuel as [|fuel]; [lia|].
    destruct (env_dial w (dials st)) as [err|] eqn:Hd.
    2: { exfalso. apply (Hfail 0); [lia|]. now rewrite Nat.add_0_r. }
    rewrite (connect_loop_failure _ _ _ Hd).
    destruct (IH fuel (add_sleep (5 * Second)
                         (add_log (error_entry "连接失败，正在重试..." err) (add_dial st))))
      as (st' & Hrun & Hdials & Hsleeps & Hiter & Hsent).
    + intros i Hi. cbn [dials add_sleep add_log add_dial].
      replace (S (dials st) + i) with (dials st + S i) by lia. apply Hfail. lia.
    + cbn [dials add_sleep add_log add_dial].
      now replace (S (dials st) + n) with (dials st + S n) by lia.
    + lia.
    + exists st'. split; [exact Hrun|]. cbn in Hdials, Hsleeps, Hiter, Hsent.
      split; [lia|]. split; [|auto].
      rewrite Hsleeps, <- app_assoc. reflexivity.
Qed.

(** While dialing fails the loop goes on dialing: it uses up whatever number
    of attempts it is given. *)
Lemma connect_loop_keeps_dialing (fuel : nat) :
  forall st : State,
    (forall i : nat, env_dial w (dials st + i) <> None) ->
    exists st' : State,
      connect_loop w fuel st = Val false st' /\
      dials st' = dials st + fuel /\
      sleeps st' = sleeps st ++ repeat (5 * Second)%Z fuel.
Proof.
  induction fuel as [|fuel IH]; intros st Hfail.
  - exists st. cbn. rewrite Nat.add_0_r, app_nil_r. auto.
  - destruct (env_dial w (dials st)) as [err|] eqn:Hd.
    2: { exfalso. apply (Hfail 0). now rewrite Nat.add_0_r. }
    rewrite (connect_loop_failure _ _ _ Hd).
    destruct (IH (add_sleep (5 * Second)
                    (add_log (error_entry "连接失败，正在重试..." err) (add_dial st))))
      as (st' & Hrun & Hdials & Hsleeps).
    + intros i. cbn [dials add_sleep add_log add_dial].
      replace (S (dials st) + i) with (dials st + S i) by lia. apply Hfail.
    + exists st'. split; [exact Hrun|]. cbn in Hdials, Hsleeps.
      split; [lia|]. rewrite Hsleeps, <- app_assoc. reflexivity.
Qed.

(** The log lines of [n] failed dials. *)
Lemma connect_loop_logs_connects (n : nat) (errs : nat -> error) :
  forall (fuel : nat) (st : State),
    (forall i : nat, i < n -> env_dial w (dials st + i) = Some (errs i)) ->
    env_dial w (dials st + n) = None ->
    n < fuel ->
    exists st' : State,
      connect_loop w fuel st = Val true st' /\
      dials st' = dials st + S n /\
      sleeps st' = sleeps st ++ repeat (5 * Second)%Z n /\
      logs st' =
        logs st ++
        map (fun i => error_entry "连接失败，正在重试..." (errs i)) (seq 0 n).
Proof.
  revert errs. induction n as [|n IH]; intros errs fuel st Hfail Hok Hfuel.
  - destruct fuel as [|fuel]; [lia|]. rewrite Nat.add_0_r in Hok.
    exists (add_dial st). rewrite (connect_loop_success _ _ Hok).
    cbn. rewrite !app_nil_r. repeat split; lia.
  - destruct fuel as [|fuel]; [lia|].
    pose proof (Hfail 0 ltac:(lia)) as Hd. rewrite Nat.add_0_r in Hd.
    rewrite (connect_loop_failure _ _ _ Hd).
    destruct (IH (fun i => errs (S i)) fuel
                 (add_sleep (5 * Second)
                    (add_log (error_entry "连接失败，正在重试..." (errs 0)) (add_dial st))))
      as (st' & Hrun & Hdials & Hsleeps & Hlogs).
    + intros i Hi. cbn [dials add_sleep add_log add_dial].
      replace (S (dials st) + i) with (dials st + S i) by lia. apply Hfail. lia.
    + cbn [dials add_sleep add_log add_dial].
      now replace (S (dials st) + n) with (dials st + S n) by lia.
    + lia.
    + exists st'. split; [exact Hrun|]. cbn in Hdials, Hsleeps, Hlogs.
      split; [lia|]. split.
      * rewrite Hsleeps, <- app_assoc. reflexivity.
      * rewrite Hlogs. cbn [seq map]. rewrite <- seq_shift, map_map, <- app_assoc.
        reflexivity.
Qed.

Lemma connect_loop_logs_dialing (fuel : nat) (errs : nat -> error) :
  forall st : State,
    (forall i : nat, env_dial w (dials st + i) = Some (errs i)) ->
    exists st' : State,
      connect_loop w fuel st = Val false st' /\
      dials st' = dials st + fuel /\
      sleeps st' = sleeps st ++ repeat (5 * Second)%Z fuel /\
      logs st' =
        logs st ++
        map (fun i => error_entry "连接失败，正在重试..." (errs i)) (seq 0 fuel).
Proof.
  revert errs. induction fuel as [|fuel IH]; intros errs st Hfail.
  - exists st. cbn. rewrite Nat.add_0_r, !app_nil_r. auto.
  - pose proof (Hfail 0) as Hd. rewrite Nat.add_0_r in Hd.
    rewrite (connect_loop_failure _ _ _ Hd).
    destruct (IH (fun i => errs (S i))
                 (add_sleep (5 * Second)
                    (add_log (error_entry "连接失败，正在重试..." (errs 0)) (add_dial st))))
      as (st' & Hrun & Hdials & Hsleeps & Hlogs).
    + intros i. cbn [dials add_sleep add_log add_dial].
      replace (S (dials st) + i) with (dials st + S i) by lia. apply Hfail.
    + exists st'. split; [exact Hrun|]. cbn in Hdials, Hsleeps, Hlogs.
      split; [lia|]. split.
      * rewrite Hsleeps, <- app_assoc. reflexivity.
      * rewrite Hlogs. cbn [seq map]. rewrite <- seq_shift, map_map, <- app_assoc.
        reflexivity.
Qed.

(** C4, amended.  While dialing fails, the driver logs each failure, sleeps
    five seconds and dials again, with no bound on the number of attempts.
    Once a dial succeeds it runs one session loop; when that loop returns an
    error, the driver logs it and exits with status 1: it has dialed as often
    as it took to connect and does not dial again. *)
Theorem driver_dials_until_connected_then_runs_once :
  (forall (dial_fuel run_fuel : nat) (errs : nat -> error) (st : State),
     env_stdin w <> "" ->
     (forall i : nat, env_dial w (dials st + i) = Some (errs i)) ->
     exists st' : State,
       main lib w dial_fuel run_fuel st = Val StillDialing st' /\
       dials st' = dials st + dial_fuel /\
       sleeps st' = sleeps st ++ repeat (5 * Second)%Z dial_fuel /\
       logs st' =
         logs st ++
         banner ::
         map (fun i => error_entry "连接失败，正在重试..." (errs i)) (seq 0 dial_fuel)) /\
  (forall (n dial_fuel run_fuel : nat) (errs : nat -> error) (st : State),
     env_stdin w <> "" ->
     (forall i : nat, i < n -> env_dial w (dials st + i) = Some (errs i)) ->
     env_dial w (dials st + n) = None ->
     env_client w = None ->
     n < dial_fuel ->
     exists st1 : State,
       connect_loop w dial_fuel (add_log banner st) = Val true st1 /\
       dials st1 = dials st + S n /\
       sleeps st1 = sleeps st ++ repeat (5 * Second)%Z n /\
       logs st1 =
         logs st ++
         banner :: map (fun i => error_entry "连接失败，正在重试..." (errs i)) (seq 0 n) /\
       (forall st2 : State,
          Run lib w run_fuel st1 = Val Running st2 ->
          main lib w dial_fuel run_fuel st = Val StillRunning st2) /\
       (forall (err : error) (st2 : State),
          Run lib w run_fuel st1 = Val (Returned err) st2 ->
          main lib w dial_fuel run_fuel st =
            Val (Exit 1) (add_log (error_entry "服务器运行错误" err) st2) /\
          dials st2 = dials st + S n /\
          sleeps st2 = sleeps st ++ repeat (5 * Second)%Z n)).
Proof.
  split.
  - intros dial_fuel run_fuel errs st Hin Hfail. apply String.eqb_neq in Hin.
    destruct (connect_loop_logs_dialing dial_fuel errs (add_log banner st) Hfail)
      as (st' & Hrun & Hdials & Hsleeps & Hlogs).
    exists st'. unfold main. unfold_io. unfold_M. rewrite Hin.
    fold banner. rewrite Hrun. cbn [negb].
    split; [reflexivity|]. split; [exact Hdials|]. split; [exact Hsleeps|].
    rewrite Hlogs. cbn [logs add_log]. now rewrite <- app_assoc.
  - intros n dial_fuel run_fuel errs st Hin Hfail Hok Hclient Hfuel.
    apply String.eqb_neq in Hin.
    destruct (connect_loop_logs_connects n errs dial_fuel (add_log banner st)
                Hfail Hok Hfuel)
      as (st1 & Hrun & Hdials & Hsleeps & Hlogs).
    exists st1. split; [exact Hrun|]. split; [exact Hdials|]. split; [exact Hsleeps|].
    split; [rewrite Hlogs; cbn [logs add_log]; now rewrite <- app_assoc|].
    assert (forall (r : RunResult) (st2 : State),
              Run lib w run_fuel st1 = Val r st2 ->
              main lib w dial_fuel run_fuel st =
              match r with
              | Returned err => Val (Exit 1) (add_log (error_entry "服务器运行错误" err) st2)
              | Running => Val StillRunning st2
              end) as Hmain.
    { intros r st2 Hr. unfold main, defer_Close. unfold_io. unfold_M. rewrite Hin.
      fold banner. rewrite Hrun. cbn [negb]. rewrite Hclient, Hr. now destruct r. }
    split.
    + intros st2 Hr. apply (Hmain _ _ Hr).
    + intros err st2 Hr. split; [apply (Hmain _ _ Hr)|].
      pose proof (Run_driver_trace run_fuel st1) as Ht. rewrite Hr in Ht.
      cbn in Ht. destruct Ht as (Hd & Hs & _). now rewrite Hd, Hs.
Qed.

End Driver.

(** * The program on concrete frames *)

(** ** The round trip scenario *)

(** The response the scenario expects on the wire. *)
Example expected_round_trip_response :
  marshal_CloudResponse flat_codec
    {| resp_Type := "client_to_server"; resp_Action := "list_model";
       resp_RequestID := "r1";
       resp_Data := AnyModels [{| model_name := "llama3"; status := "abc123" |}];
       resp_Status := "done" |} =
  frame "{'type':'client_to_server','action':'list_model','request_id':'r1','data':[{'model_name':'llama3','status':'abc123'}],'status':'done'}".
Proof. reflexivity. Qed.

(** C5.  On the frame of the round trip scenario, with a backend that lists
    the model llama3, the session does not write the expected response: the
    frame carries the key [request_id], so it is sent down the response path,
    where the loop panics on the nil request.  Nothing is written, the
    backend is never asked, no handler runs. *)
Theorem round_trip_frame_panics :
  exists st : State,
    Run flat_codec world_r1 1 initial_state = Panicked NilDereference st /\
    sent st = [] /\ handled st = [] /\ list_calls st = 0.
Proof.
  eexists. split; [vm_compute; reflexivity|]. repeat split.
Qed.

(** C6.  A read timeout is fatal after all.  On a connection where nothing
    arrives and no tick is waiting, the first read times out and the
    connection keeps that error: 999 iterations log it and leave the loop
    running, and the 1000th read panics.  Nothing was written. *)
Theorem read_timeouts_end_in_a_panic :
  match Run flat_codec quiet_world 999 initial_state with
  | Val Running st => length (logs st) = 999 /\ sent st = []
  | _ => False
  end /\
  match Run flat_codec quiet_world 1000 initial_state with
  | Panicked RepeatedRead st => length (logs st) = 999 /\ sent st = []
  | _ => False
  end.
Proof.
  vm_compute. repeat split.
Qed.

(** The same request without its [request_id] is answered, as the handler
    intends: the response carries the listing and the status [done]. *)
Example round_trip_without_request_id :
  exists st : State,
    Run flat_codec world_plain 1 initial_state = Val Running st /\
    sent st =
      [frame "{'type':'client_to_server','action':'list_model','data':[{'model_name':'llama3','status':'abc123'}],'status':'done'}"] /\
    handled st = [(ListModelHandler, parsed_request flat_codec list_model_plain)] /\
    logs st = [].
Proof.
  eexists. split; [vm_compute; reflexivity|]. repeat split.
Qed.

(** ** Counterexamples *)

(** C1, as stated, fails.  The session has issued no id at all, so by the
    words of the specification the frame with the id [r1] is a request to
    dispatch; the loop classifies it as a response, with a nil request. *)
Lemma foreign_request_id_is_classified_as_response :
  issued_ids initial_state = [] /\
  spec_is_Response (issued_ids initial_state)
    (gjson_Get flat_codec list_model_r1 "request_id") = false /\
  exists msg : Message,
    readAndParseMessage flat_codec world_r1 initial_state = Val (inl msg) initial_state /\
    classified_as_Response msg = true /\
    Request msg = None /\
    handled (final_state (Run_body flat_codec world_r1 initial_state)) = [].
Proof.
  split; [reflexivity|]. split; [reflexivity|].
  eexists. split; [vm_compute; reflexivity|]. repeat split.
Qed.

(** C3, as stated, fails.  With a connection that refuses every write, three
    heartbeats in a row fail to be sent and the loop is still running; and a
    response that cannot be written leaves the loop running too. *)
Lemma send_failure_does_not_end_the_session :
  (exists st : State,
     Run flat_codec world_send_fails 3 initial_state = Val Running st /\
     sent st = [] /\
     map log_msg (logs st) = ["发送心跳失败"; "发送心跳失败"; "发送心跳失败"]) /\
  (exists st : State,
     Run flat_codec world_plain_unwritable 1 initial_state = Val Running st /\
     sent st = [] /\
     logs st = [error_entry "处理服务端请求失败"
                  (WrapError "WebSocket 写入消息错误" closed_error)]).
Proof.
  split; eexists; (split; [vm_compute; reflexivity|]); split; reflexivity.
Qed.

(** C4, as stated, fails.  The first dial succeeds; the session runs for two
    iterations and then returns an error, the read deadline being impossible
    to arm; the process exits with status 1, having dialed once. *)
Lemma session_error_ends_the_process :
  exists st : State,
    main flat_codec world_session_breaks 5 5 initial_state = Val (Exit 1) st /\
    dials st = 1 /\
    iter st = 2 /\
    map log_msg (logs st) =
      ["请输入 WebSocket 地址 (例如 ws://localhost:8080/ws/ )";
       "处理消息时发生错误"; "处理消息时发生错误";
       "设置读取超时失败"; "服务器运行错误"].
Proof.
  eexists. split; [vm_compute; reflexivity|]. repeat split.
Qed.

(** C7, as stated, fails.  A frame cut off before its closing brace is not
    valid JSON.  The loop takes the [list_model] request of such a frame at
    its word: it answers it and logs no error at all.  And on such a frame
    that carries the key [request_id] the session does not go on: the loop
    panics. *)
Lemma truncated_frames_are_taken_at_their_word :
  (exists st : State,
     Run flat_codec world_truncated_request 1 initial_state = Val Running st /\
     logs st = [] /\
     sent st =
       [frame "{'type':'client_to_server','action':'list_model','data':[{'model_name':'llama3','status':'abc123'}],'status':'done'}"]) /\
  Run flat_codec world_truncated 1 initial_state = Panicked NilDereference initial_state.
Proof.
  split; [|reflexivity].
  eexists. split; [vm_compute; reflexivity|]. split; reflexivity.
Qed.

(** Bytes that are not JSON raise no decode error either: they are parsed,
    without error, into a request whose fields are empty, and the line the
    loop logs is the failure of the dispatch step on the empty action. *)
Lemma garbage_raises_no_decode_error :
  readAndParseMessage flat_codec world_garbage initial_state =
    Val (inl {| Raw := "not json";
                Request := Some {| req_Type := ""; req_Action := "";
                                   req_RequestID := ""; req_Params := no_params |};
                Response := None |}) initial_state /\
  exists st : State,
    Run_body flat_codec world_garbage initial_state = Val None st /\
    logs st = [error_entry "处理服务端请求失败"
                 (PlainError "处理消息时发生错误: 动作为空")].
Proof.
  split; [reflexivity|]. eexists. split; reflexivity.
Qed.

(** The scenario of the specification for malformed frames, continued: the
    heartbeat-class frame that follows the garbage is dispatched to the
    default handler, whose error is logged as well; the loop is running. *)
Example garbage_then_heartbeat_frame :
  exists st : State,
    Run flat_codec world_garbage 2 initial_state = Val Running st /\
    sent st = [] /\
    logs st = [error_entry "处理服务端请求失败"
                 (PlainError "处理消息时发生错误: 动作为空");
               error_entry "处理服务端请求失败" (PlainError "未知的动作: ping")].
Proof.
  eexists. split; [vm_compute; reflexivity|]. split; reflexivity.
Qed.

(** A frame cut off in the middle is not valid JSON either; the concrete
    decoder, as lenient as gjson, still finds its [request_id], and the loop
    panics on it. *)
Example truncated_frame_panics :
  Run flat_codec world_truncated 1 initial_state = Panicked NilDereference initial_state.
Proof. reflexivity. Qed.

(** ** The theorems at concrete inputs *)

(** C1 at the request without a correlation id: it is dispatched to the
    handler of [list_model]. *)
Lemma classification_by_key_presence_witness :
  (env_deadline world_plain (iter initial_state) = None /\
   env_tick world_plain (iter initial_state) = false /\
   env_read world_plain (iter initial_state) = inl list_model_plain) /\
  exists msg : Message,
    readAndParseMessage flat_codec world_plain initial_state = Val (inl msg) initial_state /\
    classified_as_Response msg = Exists (gjson_Get flat_codec list_model_plain "request_id") /\
    (classified_as_Response msg = true ->
       handled (final_state (Run_body flat_codec world_plain initial_state)) =
       handled initial_state) /\
    (classified_as_Response msg = false ->
       Request msg = Some (parsed_request flat_codec list_model_plain) /\
       (req_Action (parsed_request flat_codec list_model_plain) <> "" ->
        handled (final_state (Run_body flat_codec world_plain initial_state)) =
        handled initial_state ++
        [(CreateHandler (req_Action (parsed_request flat_codec list_model_plain)),
          parsed_request flat_codec list_model_plain)])).
Proof.
  split; [repeat split|].
  apply (classification_by_key_presence flat_codec world_plain initial_state
           list_model_plain); reflexivity.
Defined.

(** C2 at the frame of the round trip scenario. *)
Lemma response_path_panics_witness :
  (env_deadline world_r1 (iter initial_state) = None /\
   env_tick world_r1 (iter initial_state) = false /\
   env_read world_r1 (iter initial_state) = inl list_model_r1 /\
   Exists (gjson_Get flat_codec list_model_r1 "request_id") = true) /\
  exists msg : Message,
    readAndParseMessage flat_codec world_r1 initial_state = Val (inl msg) initial_state /\
    Request msg = None /\ Response msg <> None /\
    (forall s : State, processMessage flat_codec world_r1 msg s = Panicked NilDereference s) /\
    Run_body flat_codec world_r1 initial_state = Panicked NilDereference initial_state /\
    (forall fuel : nat,
       Run flat_codec world_r1 (S fuel) initial_state = Panicked NilDereference initial_state).
Proof.
  split; [repeat split|].
  apply (response_path_panics flat_codec world_r1 initial_state list_model_r1);
    reflexivity.
Defined.

(** C3 at a heartbeat that cannot be written, at a response that cannot be
    written, and at a read deadline that cannot be armed. *)
Lemma send_errors_are_logged_and_survived_witness :
  Run flat_codec world_send_fails 1 initial_state =
    Run flat_codec world_send_fails 0
      (next_iter
         (add_log (error_entry "发送心跳失败"
                     (WrapError "发送心跳消息失败" closed_error)) initial_state)) /\
  Run flat_codec world_plain_unwritable 1 initial_state =
    Run flat_codec world_plain_unwritable 0
      (next_iter
         (add_log (error_entry "处理服务端请求失败"
                     (WrapError "WebSocket 写入消息错误" closed_error))
            state_listed)) /\
  env_deadline world_session_error
    (iter (add_log (error_entry "设置读取超时失败" closed_error) initial_state)) =
  Some closed_error.
Proof.
  split; [|split].
  - apply (proj1 (send_errors_are_logged_and_survived flat_codec world_send_fails)
             initial_state closed_error); reflexivity.
  - refine (proj1 (proj2 (send_errors_are_logged_and_survived flat_codec
                            world_plain_unwritable))
              initial_state _ list_model_plain
              {| resp_Type := "client_to_server"; resp_Action := "list_model";
                 resp_RequestID := "";
                 resp_Data := AnyModels [{| model_name := "llama3"; status := "abc123" |}];
                 resp_Status := "done" |}
              closed_error _ _ _ _ _ _ _ 0);
      try reflexivity; discriminate.
  - apply (proj2 (proj2 (send_errors_are_logged_and_survived flat_codec
                           world_session_error))
             1 initial_state). reflexivity.
Defined.

(** C4 at a peer that is never reachable (four attempts, four log lines,
    four sleeps), and at a peer reached at the third attempt whose session
    ends at once. *)
Lemma driver_dials_until_connected_then_runs_once_witness :
  (exists st' : State,
     main flat_codec world_unreachable 4 1 initial_state = Val StillDialing st' /\
     dials st' = dials initial_state + 4 /\
     sleeps st' = sleeps initial_state ++ repeat (5 * Second)%Z 4 /\
     logs st' =
       logs initial_state ++
       banner ::
       map (fun _ : nat => error_entry "连接失败，正在重试..." refused_error) (seq 0 4)) /\
  (exists st1 : State,
     connect_loop world_redial 3 (add_log banner initial_state) = Val true st1 /\
     dials st1 = dials initial_state + 3 /\
     sleeps st1 = sleeps initial_state ++ repeat (5 * Second)%Z 2 /\
     logs st1 =
       logs initial_state ++
       banner ::
       map (fun _ : nat => error_entry "连接失败，正在重试..." refused_error) (seq 0 2) /\
     (forall st2 : State,
        Run flat_codec world_redial 1 st1 = Val Running st2 ->
        main flat_codec world_redial 3 1 initial_state = Val StillRunning st2) /\
     (forall (err : error) (st2 : State),
        Run flat_codec world_redial 1 st1 = Val (Returned err) st2 ->
        main flat_codec world_redial 3 1 initial_state =
          Val (Exit 1) (add_log (error_entry "服务器运行错误" err) st2) /\
        dials st2 = dials initial_state + 3 /\
        sleeps st2 = sleeps initial_state ++ repeat (5 * Second)%Z 2)).
Proof.
  split.
  - apply (proj1 (driver_dials_until_connected_then_runs_once flat_codec
                    world_unreachable) 4 1 (fun _ => refused_error) initial_state).
    + discriminate.
    + intros i. reflexivity.
  - apply (proj2 (driver_dials_until_connected_then_runs_once flat_codec
                    world_redial) 2 3 1 (fun _ => refused_error) initial_state).
    + discriminate.
    + intros i Hi. destruct i as [|[|i]]; [reflexivity|reflexivity|lia].
    + reflexivity.
    + reflexivity.
    + lia.
Defined.

(** The heartbeat of that run, as it appears on the wire. *)
Example heartbeat_after_silence :
  exists st : State,
    Run flat_codec world_silence 4 initial_state = Val Running st /\
    sent st =
      [frame "{'type':'heartbeat','action':'ping','request_id':'00000000-0000-4000-8000-000000000000','params':{}}"].
Proof.
  eexists. split; [vm_compute; reflexivity|]. reflexivity.
Qed.

(** C7 at bytes that are not JSON. *)
Lemma frame_without_action_is_dropped_witness :
  (env_read world_garbage (iter initial_state) = inl "not json" /\
   Exists (gjson_Get flat_codec "not json" "request_id") = false /\
   String_ (gjson_Get flat_codec "not json" "action") = "") /\
  readAndParseMessage flat_codec world_garbage initial_state =
    Val (inl {| Raw := "not json";
                Request := Some (parsed_request flat_codec "not json");
                Response := None |}) initial_state /\
  req_Action (parsed_request flat_codec "not json") = "" /\
  req_RequestID (parsed_request flat_codec "not json") = "" /\
  Run_body flat_codec world_garbage initial_state =
    Val None (add_log (error_entry "处理服务端请求失败"
                         (PlainError "处理消息时发生错误: 动作为空")) initial_state) /\
  sent (final_state (Run_body flat_codec world_garbage initial_state)) =
    sent initial_state /\
  closed (final_state (Run_body flat_codec world_garbage initial_state)) =
    closed initial_state /\
  (forall fuel : nat,
     Run flat_codec world_garbage (S fuel) initial_state =
     Run flat_codec world_garbage fuel
       (next_iter (add_log (error_entry "处理服务端请求失败"
                              (PlainError "处理消息时发生错误: 动作为空"))
                     initial_state))).
Proof.
  split; [repeat split|].
  apply (frame_without_action_is_dropped flat_codec world_garbage initial_state
           "not json"); reflexivity.
Defined.

(** C8 at the action of the specification's test. *)
Lemma unknown_action_resolves_to_default_witness :
  CreateHandler "nonexistent-action" = DefaultHandler /\
  (forall (req : CloudRequest) (st : State),
     Handle quiet_world (CreateHandler "nonexistent-action") req st =
     Val (None, Some (PlainError ("未知的动作: " +:+ req_Action req)))
         (add_handled DefaultHandler req st)).
Proof.
  apply (unknown_action_resolves_to_default quiet_world "nonexistent-action");
    discriminate.
Defined.

(** C9 at a [list_model] request while the backend is down. *)
Lemma handler_failure_is_logged_and_dropped_witness :
  let st' :=
    add_list_call
      (add_handled ListModelHandler (parsed_request flat_codec list_model_plain)
         initial_state) in
  let st_end := add_log (error_entry "处理服务端请求失败" backend_error) st' in
  Handle world_backend_down ListModelHandler
    (parsed_request flat_codec list_model_plain) initial_state =
    Val (None, Some backend_error) st' /\
  Run_body flat_codec world_backend_down initial_state = Val None st_end /\
  sent st_end = sent initial_state /\
  logs st_end = logs initial_state ++ [error_entry "处理服务端请求失败" backend_error] /\
  (forall fuel : nat,
     Run flat_codec world_backend_down (S fuel) initial_state =
     Run flat_codec world_backend_down fuel (next_iter st_end)).
Proof.
  intros st' st_end. split; [reflexivity|].
  apply (handler_failure_is_logged_and_dropped flat_codec world_backend_down
           initial_state st' list_model_plain None backend_error);
    try reflexivity.
  discriminate.
Defined.

(** C10 at a cache that holds a listing, and at an empty cache. *)
Lemma ListModels_uses_the_cache_witness :
  (MemoryCache_Get quiet_world "models" state_cached =
     Val (Some (AnyModels [{| model_name := "phi3"; status := "ffff" |}])) state_cached /\
   ListModels quiet_world state_cached =
     Val ([{| model_name := "phi3"; status := "ffff" |}], None) state_cached /\
   list_calls (final_state (ListModels quiet_world state_cached)) =
     list_calls state_cached) /\
  (MemoryCache_Get quiet_world "models" initial_state = Val None initial_state /\
   ListModels quiet_world initial_state =
     Val ([{| model_name := "llama3"; status := "abc123" |}], None)
         (set_cache
            (<["models" :=
                 {| Object := AnyModels [{| model_name := "llama3"; status := "abc123" |}];
                    Expiration := (120 * Second)%Z |}]> ∅)
            (add_list_call initial_state))).
Proof.
  split.
  - split; [reflexivity|].
    apply (proj1 (ListModels_uses_the_cache quiet_world state_cached)).
    reflexivity.
  - split; [reflexivity|].
    apply (proj2 (ListModels_uses_the_cache quiet_world initial_state)
             [("llama3", "abc123")]); reflexivity.
Defined.

(** * Further properties of the program *)

Section Coverage.
Variable lib : Codec.
Variable w : World.

(** ** The handlers *)

(** X1.  A handler call ends in exactly one of two ways: a response and no
    error, or an error and no response.  The response is the one the handler
    builds on success: channel [client_to_server], the action and the
    correlation id of the request, status [done].  The only panic is the
    type assertion of [ListModels], and it takes a cache that holds
    something else than a model listing. *)
Theorem Handle_answers_or_fails (h : RequestHandler) (req : CloudRequest) (st : State) :
  match Handle w h req st with
  | Val (Some resp, None) _ => resp = success_response req (resp_Data resp)
  | Val (None, Some _) _ => True
  | Val (Some _, Some _) _ => False
  | Val (None, None) _ => False
  | Panicked why _ =>
      h = ListModelHandler /\ why = TypeAssertion /\ ~ cache_well_typed st
  end.
Proof.
  unfold Handle, ListModelHandler_Handle, ChatHandler_Handle, DefaultHandler_Handle,
    ListModels, MemoryCache_Get, MemoryCache_Set.
  unfold_io. unfold_M. destruct h; cbn.
  - destruct (cache st !! "models") as [item|] eqn:Hc; cbn.
    + destruct ((0 <? Expiration item)%Z && (Expiration item <? env_now w (iter st))%Z); cbn.
      * destruct (env_list w (iter st)); cbn; auto.
      * destruct (Object item) as [|ms|r c|t] eqn:Ho; cbn; auto;
          (split; [reflexivity|]; split; [reflexivity|]);
          intros Hwt; destruct (Hwt item Hc) as (ms' & Hm); congruence.
    + destruct (env_list w (iter st)); cbn; auto.
  - destruct (env_chat w (iter st) _ _) as [? [|]]; cbn; auto.
  - exact I.
Qed.

(** Shared form of the above, for the proofs below. *)
Lemma Handle_outcome (h : RequestHandler) (req : CloudRequest) (st : State) :
  (exists (data : any) (st' : State),
     Handle w h req st = Val (Some (success_response req data), None) st') \/
  (exists (err : error) (st' : State), Handle w h req st = Val (None, Some err) st') \/
  (exists st' : State,
     Handle w h req st = Panicked TypeAssertion st' /\ ~ cache_well_typed st).
Proof.
  unfold Handle, ListModelHandler_Handle, ChatHandler_Handle, DefaultHandler_Handle,
    ListModels, MemoryCache_Get, MemoryCache_Set, success_response.
  unfold_io. unfold_M. destruct h; cbn.
  - destruct (cache st !! "models") as [item|] eqn:Hc; cbn.
    + destruct ((0 <? Expiration item)%Z && (Expiration item <? env_now w (iter st))%Z); cbn.
      * destruct (env_list w (iter st)); cbn; eauto.
      * destruct (Object item) as [|ms|r c|t] eqn:Ho; cbn; eauto;
          right; right; eexists; (split; [reflexivity|]);
          intros Hwt; destruct (Hwt item Hc) as (ms' & Hm); congruence.
    + destruct (env_list w (iter st)); cbn; eauto.
  - destruct (env_chat w (iter st) _ _) as [? [|]]; cbn; eauto.
  - eauto.
Qed.

(** A handler call keeps the cache well typed: what [ListModels] stores is a
    model listing. *)
Lemma Handle_keeps_cache_well_typed (h : RequestHandler) (req : CloudRequest) (st : State) :
  cache_well_typed st ->
  cache_well_typed (final_state (Handle w h req st)).
Proof.
  intros Hwt.
  unfold Handle, ListModelHandler_Handle, ChatHandler_Handle, DefaultHandler_Handle,
    ListModels, MemoryCache_Get, MemoryCache_Set.
  unfold_io. unfold_M. destruct h; cbn.
  - assert (forall (ms : list (string * string)) (e : Z),
              cache_well_typed
                (set_cache (<["models" := {| Object := AnyModels (listing ms);
                                             Expiration := e |}]> (cache st))
                   (add_list_call (add_handled ListModelHandler req st)))) as Hstore.
    { intros ms e item. cbn [cache set_cache]. rewrite lookup_insert_eq.
      intros [= <-]. cbn. eauto. }
    destruct (cache st !! "models") as [item|] eqn:Hc; cbn.
    + destruct ((0 <? Expiration item)%Z && (Expiration item <? env_now w (iter st))%Z); cbn.
      * destruct (env_list w (iter st)); cbn; [apply Hstore|exact Hwt].
      * destruct (Object item) as [|ms|r c|t] eqn:Ho; cbn; exact Hwt.
    + destruct (env_list w (iter st)); cbn; [apply Hstore|exact Hwt].
  - destruct (env_chat w (iter st) _ _) as [? [|]]; cbn; exact Hwt.
  - exact Hwt.
Qed.

(** ** What the loop writes and logs *)

Lemma outputs_silent (n : nat) (st st' : State) :
  sent st' = sent st -> logs st' = logs st -> outputs lib w n st st'.
Proof.
  intros Hs Hl. exists [], []. rewrite !app_nil_r. cbn.
  repeat split; auto; lia.
Qed.

Lemma outputs_log (st st' : State) (e : LogEntry) :
  sent st' = sent st -> logs st' = logs st ->
  In (log_msg e) loop_messages ->
  outputs lib w 1 st (add_log e st').
Proof.
  intros Hs Hl Hin. exists [], [e]. cbn. rewrite app_nil_r, Hs, Hl.
  repeat split; auto.
Qed.

Lemma outputs_trans (n m : nat) (st s1 st' : State) :
  outputs lib w n st s1 -> outputs lib w m s1 st' -> outputs lib w (n + m) st st'.
Proof.
  intros (f1 & e1 & Hs1 & Hl1 & Hn1 & Hm1 & Hf1 & He1)
         (f2 & e2 & Hs2 & Hl2 & Hn2 & Hm2 & Hf2 & He2).
  exists (f1 ++ f2), (e1 ++ e2).
  rewrite Hs2, Hs1, Hl2, Hl1, <- !app_assoc, !length_app.
  repeat split; try lia; apply Forall_app; auto.
Qed.

Lemma parsed_request_has_no_id (raw : string) :
  Exists (gjson_Get lib raw "request_id") = false ->
  req_RequestID (parsed_request lib raw) = "".
Proof.
  unfold parsed_request. cbn. now destruct (gjson_Get lib raw "request_id").
Qed.

Lemma Run_body_outputs (st : State) :
  outputs lib w 1 st (final_state (Run_body lib w st)).
Proof.
  destruct (env_deadline w (iter st)) as [e|] eqn:Hd.
  { rewrite (Run_body_deadline_error _ _ _ _ Hd). cbn [final_state].
    apply outputs_log; cbn; auto. }
  destruct (env_tick w (iter st)) eqn:Ht.
  { rewrite (Run_body_heartbeat _ _ _ Hd Ht).
    destruct (env_write _ _ _); cbn [final_state].
    - apply outputs_log; cbn; auto.
    - exists [heartbeat_frame lib (env_uuid w (iter st))],
             [{| log_level := INFO; log_msg := "心跳已发送";
                 log_args := [("request_id", ArgStr (env_uuid w (iter st)))] |}].
      cbn. repeat split; auto.
      constructor; [|constructor]. left. eauto. }
  destruct (read_outcome w (iter st)) as [raw|e|] eqn:Hr.
  2: { rewrite (Run_body_read_error _ _ _ _ Hd Ht Hr). cbn [final_state].
       apply outputs_log; cbn; auto. }
  2: { rewrite (Run_body_read_panic _ _ _ Hd Ht Hr). now apply outputs_silent. }
  apply read_outcome_delivered in Hr.
  destruct (Exists (gjson_Get lib raw "request_id")) eqn:Hk.
  { rewrite (Run_body_response _ _ _ _ Hd Ht Hr Hk). now apply outputs_silent. }
  rewrite (Run_body_request _ _ _ _ Hd Ht Hr Hk).
  destruct (String.eqb_spec (req_Action (parsed_request lib raw)) "") as [Ha|Ha].
  { rewrite (handleServerRequest_empty_action _ _ _ _ _ _ Ha). cbn [final_state].
    apply outputs_log; cbn; auto 10. }
  rewrite (handleServerRequest_dispatch _ _ _ _ _ _ Ha).
  pose proof (Handle_effects w (CreateHandler (req_Action (parsed_request lib raw)))
                (parsed_request lib raw) st) as He. cbv zeta in He.
  destruct (Handle_outcome (CreateHandler (req_Action (parsed_request lib raw)))
              (parsed_request lib raw) st)
    as [(data & st1 & Hh)|[(err & st1 & Hh)|(st1 & Hh & _)]];
    rewrite Hh in He |- *; cbn [final_state] in He;
    destruct He as (Hi & Hs & Hl & _).
  - unfold sendResponse. unfold_io. unfold_M. cbn [Response].
    destruct (env_write w (iter st1) _); cbn [final_state].
    + apply outputs_log; cbn; auto 10.
    + eexists [_], []. cbn [sent logs add_sent]. rewrite app_nil_r, Hs, Hl.
      repeat split; auto. constructor; [|constructor]. right.
      eexists. split; [reflexivity|]. split; [reflexivity|]. split; [reflexivity|].
      exact (parsed_request_has_no_id _ Hk).
  - cbn [final_state]. apply outputs_log; cbn; auto 10.
  - cbn [final_state]. now apply outputs_silent.
Qed.

(** X2.  Whatever the world does, in [fuel] iterations the loop writes at
    most [fuel] frames and at most [fuel] log lines.  Every frame it writes
    is a heartbeat or a response on the channel [client_to_server] with the
    status [done] and no [request_id]; every line it logs carries one of
    five messages, among which neither the line for a read timeout nor the
    line for a failed response is found. *)
Theorem Run_outputs (fuel : nat) (st : State) :
  exists (frames : list string) (entries : list LogEntry),
    sent (final_state (Run lib w fuel st)) = sent st ++ frames /\
    logs (final_state (Run lib w fuel st)) = logs st ++ entries /\
    length frames <= fuel /\
    length entries <= fuel /\
    Forall (loop_frame lib w) frames /\
    Forall (fun e => In (log_msg e) loop_messages /\
                     log_msg e <> "读取超时，等待下次心跳" /\
                     log_msg e <> "处理客户端响应失败") entries.
Proof.
  assert (outputs lib w fuel st (final_state (Run lib w fuel st))) as Hout.
  { revert st. induction fuel as [|fuel IH]; intros st.
    - cbn. now apply outputs_silent.
    - pose proof (Run_body_outputs st) as Hb.
      destruct (Run_body lib w st) as [[e|] s1|why s1] eqn:Hbody; cbn [final_state] in Hb.
      + rewrite (Run_return _ _ _ _ _ _ Hbody). cbn [final_state].
        replace (S fuel) with (1 + fuel) by lia.
        eapply outputs_trans; [exact Hb|]. now apply outputs_silent.
      + rewrite (Run_continue _ _ _ _ _ Hbody).
        replace (S fuel) with (1 + fuel) by lia.
        eapply outputs_trans; [exact Hb|]. apply (IH (next_iter s1)).
      + rewrite (Run_panic _ _ _ _ _ _ Hbody). cbn [final_state].
        replace (S fuel) with (1 + fuel) by lia.
        eapply outputs_trans; [exact Hb|]. now apply outputs_silent. }
  destruct Hout as (frames & entries & Hs & Hl & Hn & Hm & Hf & He).
  exists frames, entries. repeat split; auto.
  eapply Forall_impl; [exact He|]. cbn. intros e Hin.
  split; [exact Hin|].
  split; intros Heq; rewrite Heq in Hin; cbn in Hin;
    repeat (destruct Hin as [Hin|Hin]; [discriminate Hin|]); exact Hin.
Qed.


(** ** When the loop panics, and when it does not *)

Lemma cache_well_typed_same_cache (st st' : State) :
  cache st' = cache st -> cache_well_typed st -> cache_well_typed st'.
Proof.
  unfold cache_well_typed. intros ->. auto.
Qed.

(** One iteration from a well typed cache.  It panics in two cases only,
    and then leaves the state as it was: on a frame that carries the key
    [request_id], and on a read that the connection answers with its panic.
    When it does not panic the cache is well typed again. *)
Lemma Run_body_from_well_typed (st : State) :
  cache_well_typed st ->
  match Run_body lib w st with
  | Panicked why st' =>
      st' = st /\
      env_deadline w (iter st) = None /\
      env_tick w (iter st) = false /\
      ((why = NilDereference /\
        exists raw : string,
          env_read w (iter st) = inl raw /\
          Exists (gjson_Get lib raw "request_id") = true) \/
       (why = RepeatedRead /\ read_outcome w (iter st) = ReadPanics))
  | Val _ st' => cache_well_typed st'
  end.
Proof.
  intros Hwt.
  destruct (env_deadline w (iter st)) as [e|] eqn:Hd.
  { now rewrite (Run_body_deadline_error _ _ _ _ Hd). }
  destruct (env_tick w (iter st)) eqn:Ht.
  { rewrite (Run_body_heartbeat _ _ _ Hd Ht). destruct (env_write _ _ _); exact Hwt. }
  destruct (read_outcome w (iter st)) as [raw|e|] eqn:Hr.
  2: { now rewrite (Run_body_read_error _ _ _ _ Hd Ht Hr). }
  2: { rewrite (Run_body_read_panic _ _ _ Hd Ht Hr). auto 10. }
  apply read_outcome_delivered in Hr.
  destruct (Exists (gjson_Get lib raw "request_id")) eqn:Hk.
  { rewrite (Run_body_response _ _ _ _ Hd Ht Hr Hk). eauto 10. }
  rewrite (Run_body_request _ _ _ _ Hd Ht Hr Hk).
  destruct (String.eqb_spec (req_Action (parsed_request lib raw)) "") as [Ha|Ha].
  { now rewrite (handleServerRequest_empty_action _ _ _ _ _ _ Ha). }
  rewrite (handleServerRequest_dispatch _ _ _ _ _ _ Ha).
  pose proof (Handle_keeps_cache_well_typed
                (CreateHandler (req_Action (parsed_request lib raw)))
                (parsed_request lib raw) st Hwt) as Hkeep.
  destruct (Handle_outcome (CreateHandler (req_Action (parsed_request lib raw)))
              (parsed_request lib raw) st)
    as [(data & st1 & Hh)|[(err & st1 & Hh)|(st1 & Hh & Hbad)]];
    rewrite Hh in Hkeep |- *; cbn [final_state] in Hkeep.
  - unfold sendResponse. unfold_io. unfold_M. cbn [Response].
    destruct (env_write w (iter st1) _); exact Hkeep.
  - exact Hkeep.
  - now destruct Hbad.
Qed.

(** A read panics only after 999 reads have ended in an error. *)
Lemma ReadPanics_after_999_failures (k : nat) :
  read_outcome w k = ReadPanics -> 999 <= readErrCount (conn_at w k).
Proof.
  unfold read_outcome, conn_ReadMessage, count_failure.
  assert (forall (e : error) (c : Conn),
            (if (1000 <=? S (readErrCount c))%nat then ReadPanics else Failed e)
            = ReadPanics -> 999 <= readErrCount c) as Hcount.
  { intros e c. destruct (Nat.leb_spec 1000 (S (readErrCount c))); [lia|discriminate]. }
  destruct (readErr (conn_at w k)) as [e|]; cbn [fst].
  - apply Hcount.
  - destruct (env_wire w k) as [m|e]; cbn [fst]; [discriminate|apply Hcount].
Qed.

(** X3.  From a well typed cache, as the empty cache of a fresh session is,
    the session loop panics in two ways only, each in an iteration that has
    armed the deadline and found no tick waiting: the nil dereference on a
    frame that carries the key [request_id], and the panic of the connection
    on a read that follows 999 failed reads. *)
Theorem Run_panics_in_two_ways
    (fuel : nat) (st st' : State) (why : PanicReason) :
  cache_well_typed st ->
  Run lib w fuel st = Panicked why st' ->
  iter st <= iter st' /\
  env_deadline w (iter st') = None /\
  env_tick w (iter st') = false /\
  ((why = NilDereference /\
    exists raw : string,
      env_read w (iter st') = inl raw /\
      Exists (gjson_Get lib raw "request_id") = true) \/
   (why = RepeatedRead /\ 999 <= readErrCount (conn_at w (iter st')))).
Proof.
  revert st. induction fuel as [|fuel IH]; intros st Hwt Hrun.
  - discriminate.
  - pose proof (Run_body_from_well_typed st Hwt) as Hb.
    pose proof (Run_body_iter lib w st) as Hi.
    destruct (Run_body lib w st) as [[e|] s1|y s1] eqn:Hbody; cbn [final_state] in Hi.
    + rewrite (Run_return _ _ _ _ _ _ Hbody) in Hrun. discriminate.
    + rewrite (Run_continue _ _ _ _ _ Hbody) in Hrun.
      destruct (IH (next_iter s1)) as (Hle & Hrest); [exact Hb|exact Hrun|].
      cbn in Hle. split; [lia|exact Hrest].
    + rewrite (Run_panic _ _ _ _ _ _ Hbody) in Hrun. injection Hrun as <- <-.
      destruct Hb as (-> & Hd & Ht & [Hnil|(Hy & Hp)]).
      * split; [lia|]. auto.
      * split; [lia|]. split; [exact Hd|]. split; [exact Ht|]. right.
        split; [exact Hy|]. now apply ReadPanics_after_999_failures.
Qed.

(** X4.  The session loop goes on for as long as the read deadline can be
    armed and every read delivers a frame without the key [request_id]:
    from a well typed cache it neither returns nor panics, whatever the
    frames ask for and whatever the backend and the writes answer. *)
Theorem Run_keeps_running (fuel : nat) (st : State) :
  cache_well_typed st ->
  (forall i : nat, i < fuel -> env_deadline w (iter st + i) = None) ->
  (forall i : nat,
     i < fuel ->
     env_tick w (iter st + i) = false ->
     exists raw : string,
       env_read w (iter st + i) = inl raw /\
       Exists (gjson_Get lib raw "request_id") = false) ->
  exists st' : State,
    Run lib w fuel st = Val Running st' /\
    iter st' = iter st + fuel /\
    cache_well_typed st'.
Proof.
  revert st. induction fuel as [|fuel IH]; intros st Hwt Hdl Hfr.
  - exists st. cbn. rewrite Nat.add_0_r. auto.
  - pose proof (Run_body_from_well_typed st Hwt) as Hb.
    pose proof (Run_body_iter lib w st) as Hi.
    pose proof (Hdl 0 ltac:(lia)) as Hd0. rewrite Nat.add_0_r in Hd0.
    destruct (Run_body lib w st) as [[e|] s1|y s1] eqn:Hbody; cbn [final_state] in Hi.
    + apply Run_body_returns_only_on_deadline in Hbody. congruence.
    + rewrite (Run_continue _ _ _ _ _ Hbody).
      destruct (IH (next_iter s1)) as (st' & Hrun & Hit & Hwt').
      * exact Hb.
      * intros i Hlt. cbn [iter next_iter]. rewrite Hi.
        replace (S (iter st) + i) with (iter st + S i) by lia. apply Hdl. lia.
      * intros i Hlt. cbn [iter next_iter]. rewrite Hi.
        replace (S (iter st) + i) with (iter st + S i) by lia. apply Hfr. lia.
      * exists st'. split; [exact Hrun|]. cbn in Hit. split; [lia|exact Hwt'].
    + destruct Hb as (_ & _ & Ht & Hwhy).
      destruct (Hfr 0 ltac:(lia)) as (raw0 & Hr0 & Hk0);
        [now rewrite Nat.add_0_r|]. rewrite Nat.add_0_r in Hr0.
      destruct Hwhy as [(_ & raw & Hr & Hk)|(_ & Hp)].
      * rewrite Hr0 in Hr. injection Hr as <-. congruence.
      * apply env_read_delivered in Hr0. congruence.
Qed.

(** ** Reads that fail *)

(** The connection has counted no failure as long as it holds no error. *)
Lemma conn_at_no_error_no_count (k : nat) :
  readErr (conn_at w k) = None -> readErrCount (conn_at w k) = 0.
Proof.
  induction k as [|k IH]; [reflexivity|]. cbn [conn_at].
  destruct (reads_in w k); [|exact IH].
  unfold conn_ReadMessage, count_failure.
  destruct (readErr (conn_at w k)) as [e|] eqn:He; cbn; [discriminate|].
  destruct (env_wire w k); cbn; [|discriminate].
  intros _. now apply IH.
Qed.

(** While reads fail the loop logs each error and goes on. *)
Lemma Run_over_failed_reads (err : error) (N : nat) :
  forall st : State,
    (forall i : nat, i < N ->
       env_deadline w (iter st + i) = None /\
       env_tick w (iter st + i) = false /\
       read_outcome w (iter st + i) = Failed err) ->
    exists st' : State,
      Run lib w N st = Val Running st' /\
      iter st' = iter st + N /\
      sent st' = sent st /\
      handled st' = handled st /\
      logs st' =
        logs st ++
        repeat (error_entry "处理消息时发生错误"
                  (WrapError "WebSocket 读取消息错误" err)) N.
Proof.
  induction N as [|N IH]; intros st Hall.
  - exists st. cbn. rewrite Nat.add_0_r, app_nil_r. auto 10.
  - destruct (Hall 0 ltac:(lia)) as (Hd & Ht & Hr).
    rewrite Nat.add_0_r in Hd, Ht, Hr.
    pose proof (Run_body_read_error lib w _ _ Hd Ht Hr) as Hb.
    destruct (IH (next_iter (add_log (error_entry "处理消息时发生错误"
                                       (WrapError "WebSocket 读取消息错误" err)) st)))
      as (st' & Hrun & Hiter & Hsent & Hhandled & Hlogs).
    { intros i Hi. cbn [iter next_iter add_log].
      replace (S (iter st) + i) with (iter st + S i) by lia. apply Hall. lia. }
    exists st'. rewrite (Run_continue _ _ _ _ _ Hb).
    split; [exact Hrun|]. split; [cbn in Hiter; lia|].
    split; [exact Hsent|]. split; [exact Hhandled|].
    rewrite Hlogs. cbn [logs next_iter add_log repeat]. now rewrite <- app_assoc.
Qed.

(** After a first failed read, with the loop reading in every iteration, the
    connection holds the error and has counted the reads since. *)
Lemma conn_after_first_failure (k : nat) (err : error) (i : nat) :
  readErr (conn_at w k) = None ->
  env_wire w k = inr err ->
  (forall j : nat, j <= i ->
     env_deadline w (k + j) = None /\ env_tick w (k + j) = false) ->
  conn_at w (k + S i) = {| readErr := Some err; readErrCount := S i |}.
Proof.
  intros Hnone Hwire Hreads.
  assert (forall j : nat, j <= i -> reads_in w (k + j) = true) as Hin.
  { intros j Hj. destruct (Hreads j Hj) as (Hd & Ht). unfold reads_in.
    now rewrite Hd, Ht. }
  induction i as [|i IH].
  - rewrite Nat.add_1_r. cbn [conn_at].
    pose proof (Hin 0 ltac:(lia)) as H0. rewrite Nat.add_0_r in H0. rewrite H0.
    unfold conn_ReadMessage, count_failure. rewrite Hnone, Hwire. cbn [snd].
    now rewrite (conn_at_no_error_no_count _ Hnone).
  - rewrite Nat.add_succ_r. cbn [conn_at]. rewrite (Hin (S i)) by lia.
    rewrite IH; [|intros j Hj; apply Hreads; lia|intros j Hj; apply Hin; lia].
    reflexivity.
Qed.

(** X5.  A read error is kept for good and ends the session.  After a first
    failed read, a timeout included, every later read fails with the same
    error, whatever the wire holds by then: the loop, reading in every
    iteration, logs that error 999 times and writes nothing, and the 1000th
    read panics. *)
Theorem read_error_is_kept_and_fatal (st : State) (err : error) :
  readErr (conn_at w (iter st)) = None ->
  env_wire w (iter st) = inr err ->
  (forall i : nat, i < 1000 ->
     env_deadline w (iter st + i) = None /\ env_tick w (iter st + i) = false) ->
  (forall N : nat, N < 1000 ->
     exists st' : State,
       Run lib w N st = Val Running st' /\
       sent st' = sent st /\
       handled st' = handled st /\
       logs st' =
         logs st ++
         repeat (error_entry "处理消息时发生错误"
                   (WrapError "WebSocket 读取消息错误" err)) N) /\
  (exists st' : State,
     Run lib w 1000 st = Panicked RepeatedRead st' /\
     sent st' = sent st /\
     handled st' = handled st /\
     logs st' =
       logs st ++
       repeat (error_entry "处理消息时发生错误"
                 (WrapError "WebSocket 读取消息错误" err)) 999).
Proof.
  intros Hnone Hwire Hreads.
  assert (forall i : nat, i < 1000 ->
            read_outcome w (iter st + i) =
            if (i <? 999)%nat then Failed err else ReadPanics) as Hout.
  { intros i Hi. unfold read_outcome. destruct i as [|i].
    - rewrite Nat.add_0_r. unfold conn_ReadMessage, count_failure.
      rewrite Hnone, Hwire, (conn_at_no_error_no_count _ Hnone). reflexivity.
    - rewrite (conn_after_first_failure (iter st) err i Hnone Hwire)
        by (intros j Hj; apply Hreads; lia).
      unfold conn_ReadMessage, count_failure. cbn [readErr readErrCount fst].
      destruct (Nat.leb_spec 1000 (S (S i))); destruct (Nat.ltb_spec (S i) 999);
        try lia; reflexivity. }
  assert (forall N : nat, N < 1000 ->
            exists st' : State,
              Run lib w N st = Val Running st' /\
              iter st' = iter st + N /\
              sent st' = sent st /\
              handled st' = handled st /\
              logs st' =
                logs st ++
                repeat (error_entry "处理消息时发生错误"
                          (WrapError "WebSocket 读取消息错误" err)) N) as Hrun.
  { intros N HN. apply Run_over_failed_reads. intros i Hi.
    destruct (Hreads i ltac:(lia)) as (Hd & Ht). split; [exact Hd|].
    split; [exact Ht|]. rewrite (Hout i) by lia.
    destruct (Nat.ltb_spec i 999); [reflexivity|lia]. }
  split.
  - intros N HN. destruct (Hrun N HN) as (st' & H1 & _ & H2). eauto.
  - destruct (Hrun 999 ltac:(lia)) as (st' & H1 & Hi & Hs & Hh & Hl).
    exists st'. change 1000 with (999 + 1). rewrite (Run_app _ _ _ 1 _ _ H1).
    destruct (Hreads 999 ltac:(lia)) as (Hd & Ht).
    pose proof (Hout 999 ltac:(lia)) as Hp. rewrite <- Hi in Hd, Ht, Hp.
    rewrite (Run_panic _ _ _ _ _ _ (Run_body_read_panic _ _ _ Hd Ht Hp)). auto.
Qed.

(** ** Ticks *)

(** X6.  While a tick is waiting at every iteration and the writes succeed,
    every iteration sends one heartbeat: the frames written are the heartbeat
    frames of the ids drawn, in order, and these ids are the ids the session
    has issued. *)
Theorem ticks_send_heartbeats (N : nat) (st : State) :
  (forall i : nat, i < N ->
     env_deadline w (iter st + i) = None /\
     env_tick w (iter st + i) = true /\
     env_write w (iter st + i)
       (heartbeat_frame lib (env_uuid w (iter st + i))) = None) ->
  exists st' : State,
    Run lib w N st = Val Running st' /\
    iter st' = iter st + N /\
    sent st' =
      sent st ++
      map (fun i => heartbeat_frame lib (env_uuid w (iter st + i))) (seq 0 N) /\
    issued_ids st' =
      issued_ids st ++ map (fun i => env_uuid w (iter st + i)) (seq 0 N).
Proof.
  revert st. induction N as [|N IH]; intros st Hall.
  - exists st. cbn. rewrite Nat.add_0_r, !app_nil_r. auto.
  - destruct (Hall 0 ltac:(lia)) as (Hd & Ht & Hw).
    rewrite Nat.add_0_r in Hd, Ht, Hw.
    pose proof (Run_body_heartbeat lib w _ Hd Ht) as Hb. rewrite Hw in Hb.
    match type of Hb with _ = Val None ?s =>
      destruct (IH (next_iter s)) as (st' & Hrun & Hiter & Hsent & Hids)
    end.
    { intros i Hi. cbn [iter next_iter add_log add_sent].
      replace (S (iter st) + i) with (iter st + S i) by lia. apply Hall. lia. }
    exists st'. rewrite (Run_continue _ _ _ _ _ Hb).
    split; [exact Hrun|]. split; [cbn in Hiter; lia|].
    cbn [iter sent next_iter add_log add_sent] in Hsent.
    split.
    + rewrite Hsent. cbn [seq map]. rewrite Nat.add_0_r, <- app_assoc.
      cbn [app]. do 2 f_equal. rewrite <- seq_shift, map_map.
      apply map_ext. intros i. do 2 f_equal. lia.
    + rewrite Hids. unfold issued_ids at 1.
      cbn [iter logs next_iter add_log add_sent]. rewrite flat_map_app.
      fold (issued_ids st). cbn [flat_map log_msg log_args]. cbn.
      rewrite Nat.add_0_r, <- app_assoc. cbn [app]. do 2 f_equal.
      rewrite <- seq_shift, map_map.
      apply map_ext. intros i. do 2 f_equal. lia.
Qed.

(** ** The cached listing over time *)

Lemma MemoryCache_Get_miss (st : State) :
  MemoryCache_Get w "models" st = Val None st ->
  cache st !! "models" = None \/
  exists item : Item,
    cache st !! "models" = Some item /\
    (0 < Expiration item)%Z /\ (Expiration item < env_now w (iter st))%Z.
Proof.
  unfold MemoryCache_Get. unfold_io. unfold_M.
  destruct (cache st !! "models") as [item|]; [|auto].
  destruct (0 <? Expiration item)%Z eqn:H0; destruct (Expiration item <? env_now w (iter st))%Z eqn:H1;
    cbn; try discriminate.
  intros _. right. exists item. split; [reflexivity|]. lia.
Qed.

(** X7.  A listing fetched from the backend at time [t] is served again, with
    no call to the backend, by every call made up to [t] + 120 seconds; a
    call made later than that goes to the backend again. *)
Theorem ListModels_serves_a_listing_for_120_seconds
    (st st2 : State) (models : list (string * string)) :
  MemoryCache_Get w "models" st = Val None st ->
  env_list w (iter st) = inl models ->
  (0 <= env_now w (iter st))%Z ->
  cache st2 = cache (final_state (ListModels w st)) ->
  ((env_now w (iter st2) <= env_now w (iter st) + 120 * Second)%Z ->
   ListModels w st2 = Val (listing models, None) st2) /\
  ((env_now w (iter st) + 120 * Second < env_now w (iter st2))%Z ->
   list_calls (final_state (ListModels w st2)) = S (list_calls st2)).
Proof.
  intros Hmiss Hlist Hnow Hcache.
  assert (cache st2 !! "models" =
          Some {| Object := AnyModels (listing models);
                  Expiration := (env_now w (iter st) + 120 * Second)%Z |}) as Hlook.
  { rewrite Hcache. unfold ListModels. unfold_M. rewrite Hmiss.
    unfold client_List. rewrite Hlist.
    unfold MemoryCache_Set, time_Now. unfold_M. cbn. apply lookup_insert_eq. }
  assert (0 < env_now w (iter st) + 120 * Second)%Z as Hpos
    by (unfold Second; lia).
  split; intros Ht.
  - unfold ListModels, MemoryCache_Get. unfold_io. unfold_M. rewrite Hlook. cbn.
    replace (env_now w (iter st) + 120 * Second <? env_now w (iter st2))%Z
      with false by (symmetry; apply Z.ltb_ge; lia).
    rewrite andb_false_r. reflexivity.
  - unfold ListModels, MemoryCache_Get, MemoryCache_Set. unfold_io. unfold_M.
    rewrite Hlook. cbn.
    replace (0 <? env_now w (iter st) + 120 * Second)%Z
      with true by (symmetry; apply Z.ltb_lt; lia).
    replace (env_now w (iter st) + 120 * Second <? env_now w (iter st2))%Z
      with true by (symmetry; apply Z.ltb_lt; lia).
    cbn. destruct (env_list w (iter st2)); reflexivity.
Qed.

(** X8.  A failure of the backend is not cached.  The call returns the error
    of the backend as it is, with no listing, and leaves the cache as it
    was; a later call goes to the backend again. *)
Theorem ListModels_failure_is_not_cached (st st2 : State) (err : error) :
  MemoryCache_Get w "models" st = Val None st ->
  env_list w (iter st) = inr err ->
  cache st2 = cache (final_state (ListModels w st)) ->
  (env_now w (iter st) <= env_now w (iter st2))%Z ->
  ListModels w st = Val ([], Some err) (add_list_call st) /\
  cache (final_state (ListModels w st)) = cache st /\
  list_calls (final_state (ListModels w st2)) = S (list_calls st2).
Proof.
  intros Hmiss Hlist Hcache Hnow.
  assert (ListModels w st = Val ([], Some err) (add_list_call st)) as Hcall.
  { unfold ListModels. unfold_M. rewrite Hmiss. unfold client_List. now rewrite Hlist. }
  rewrite Hcall in Hcache |- *. cbn [final_state cache add_list_call] in Hcache |- *.
  split; [reflexivity|]. split; [reflexivity|].
  unfold ListModels, MemoryCache_Get, MemoryCache_Set. unfold_io. unfold_M.
  rewrite Hcache.
  destruct (MemoryCache_Get_miss st Hmiss) as [Hnone|(item & Hsome & H0 & H1)].
  - rewrite Hnone. cbn. destruct (env_list w (iter st2)); reflexivity.
  - rewrite Hsome. cbn.
    replace (0 <? Expiration item)%Z with true by (symmetry; apply Z.ltb_lt; lia).
    replace (Expiration item <? env_now w (iter st2))%Z
      with true by (symmetry; apply Z.ltb_lt; lia).
    cbn. destruct (env_list w (iter st2)); reflexivity.
Qed.

(** ** Requests, end to end *)

(** X9.  A [list_model] request without a correlation id is answered in the
    iteration that reads it: the loop writes one response on the channel
    [client_to_server], with the action [list_model], the listing that
    [ListModels] returned (from the cache or from the backend) and the status
    [done], and logs nothing. *)
Theorem list_model_request_is_answered
    (st st1 : State) (raw : string) (entries : list ModelEntry) :
  env_deadline w (iter st) = None ->
  env_tick w (iter st) = false ->
  env_read w (iter st) = inl raw ->
  Exists (gjson_Get lib raw "request_id") = false ->
  String_ (gjson_Get lib raw "action") = "list_model" ->
  ListModels w (add_handled ListModelHandler (parsed_request lib raw) st) =
    Val (entries, None) st1 ->
  env_write w (iter st)
    (marshal_CloudResponse lib
       {| resp_Type := "client_to_server"; resp_Action := "list_model";
          resp_RequestID := ""; resp_Data := AnyModels entries;
          resp_Status := "done" |}) = None ->
  Run_body lib w st =
    Val None
      (add_sent
         (marshal_CloudResponse lib
            {| resp_Type := "client_to_server"; resp_Action := "list_model";
               resp_RequestID := ""; resp_Data := AnyModels entries;
               resp_Status := "done" |}) st1) /\
  logs st1 = logs st /\ sent st1 = sent st.
Proof.
  intros Hd Ht Hr Hk Ha Hl Hw.
  assert (req_Action (parsed_request lib raw) = "list_model") as Ha' by exact Ha.
  assert (req_RequestID (parsed_request lib raw) = "") as Hid
    by exact (parsed_request_has_no_id _ Hk).
  assert (Handle w ListModelHandler (parsed_request lib raw) st =
          Val (Some {| resp_Type := "client_to_server"; resp_Action := "list_model";
                       resp_RequestID := ""; resp_Data := AnyModels entries;
                       resp_Status := "done" |}, None) st1) as Hh.
  { unfold Handle, ListModelHandler_Handle. unfold_M. rewrite Hl.
    now rewrite Ha', Hid. }
  pose proof (Handle_effects w ListModelHandler (parsed_request lib raw) st) as He.
  rewrite Hh in He. cbn in He. destruct He as (Hi & Hs & Hlg & _).
  split; [|auto].
  rewrite (Run_body_request _ _ _ _ Hd Ht Hr Hk).
  rewrite handleServerRequest_dispatch by (rewrite Ha'; discriminate).
  rewrite Ha'. change (CreateHandler "list_model") with ListModelHandler. rewrite Hh.
  rewrite <- Hi in Hw.
  unfold sendResponse. unfold_io. unfold_M. cbn [Response]. now rewrite Hw.
Qed.

(** X10.  A [chat] request reaches the backend without its params: whatever
    model and messages the frame carries, [Chat] is called with the empty
    model name and no message, and its reply is written back as the message
    of the role [assistant], with the status [done]. *)
Theorem chat_request_loses_its_params (st : State) (raw reply : string) :
  env_deadline w (iter st) = None ->
  env_tick w (iter st) = false ->
  env_read w (iter st) = inl raw ->
  Exists (gjson_Get lib raw "request_id") = false ->
  String_ (gjson_Get lib raw "action") = "chat" ->
  env_chat w (iter st) "" [] = (reply, None) ->
  env_write w (iter st)
    (marshal_CloudResponse lib
       {| resp_Type := "client_to_server"; resp_Action := "chat";
          resp_RequestID := ""; resp_Data := AnyChatReply "assistant" reply;
          resp_Status := "done" |}) = None ->
  Run_body lib w st =
    Val None
      (add_sent
         (marshal_CloudResponse lib
            {| resp_Type := "client_to_server"; resp_Action := "chat";
               resp_RequestID := ""; resp_Data := AnyChatReply "assistant" reply;
               resp_Status := "done" |})
         (add_handled ChatHandler (parsed_request lib raw) st)).
Proof.
  intros Hd Ht Hr Hk Ha Hc Hw.
  assert (req_Action (parsed_request lib raw) = "chat") as Ha' by exact Ha.
  assert (req_RequestID (parsed_request lib raw) = "") as Hid
    by exact (parsed_request_has_no_id _ Hk).
  assert (Handle w ChatHandler (parsed_request lib raw) st =
          Val (Some {| resp_Type := "client_to_server"; resp_Action := "chat";
                       resp_RequestID := ""; resp_Data := AnyChatReply "assistant" reply;
                       resp_Status := "done" |}, None)
              (add_handled ChatHandler (parsed_request lib raw) st)) as Hh.
  { unfold Handle, ChatHandler_Handle. unfold_io. unfold_M.
    cbn [iter add_handled req_Params parsed_request ModelName Messages no_params map].
    rewrite Hc. cbn [req_Action req_RequestID parsed_request].
    change (String_ (gjson_Get lib raw "action")) with (req_Action (parsed_request lib raw)).
    change (String_ (gjson_Get lib raw "request_id"))
      with (req_RequestID (parsed_request lib raw)).
    now rewrite Ha', Hid. }
  rewrite (Run_body_request _ _ _ _ Hd Ht Hr Hk).
  rewrite handleServerRequest_dispatch by (rewrite Ha'; discriminate).
  rewrite Ha'. change (CreateHandler "chat") with ChatHandler. rewrite Hh.
  unfold sendResponse. unfold_io. unfold_M. cbn [Response iter add_handled].
  now rewrite Hw.
Qed.

(** ** The response path, had it a request *)

(** X11.  [processMessage] reports two kinds of error only: the error of the
    handler and the error of the write, each wrapped; its branch for a
    handler that returns neither a response nor an error is never taken.
    When it reports no error it has written exactly one response, with the
    status [done].  It panics on a message without a request, and otherwise
    only on an ill typed cache. *)
Theorem processMessage_outcomes (msg : Message) (st : State) :
  match processMessage lib w msg st with
  | Val None st' =>
      exists resp : CloudResponse,
        sent st' = sent st ++ [marshal_CloudResponse lib resp] /\
        resp_Status resp = "done"
  | Val (Some (WrapError prefix _)) st' =>
      (prefix = "处理请求失败" \/ prefix = "WebSocket 写入消息错误") /\
      sent st' = sent st
  | Val (Some _) _ => False
  | Panicked why _ =>
      (why = NilDereference /\ Request msg = None) \/
      (why = TypeAssertion /\ ~ cache_well_typed st)
  end.
Proof.
  unfold processMessage. destruct (Request msg) as [req|] eqn:Hreq.
  2: { cbn. auto. }
  unfold_M.
  pose proof (Handle_effects w (CreateHandler (req_Action req)) req st) as He.
  cbv zeta in He.
  destruct (Handle_outcome (CreateHandler (req_Action req)) req st)
    as [(data & st1 & Hh)|[(err & st1 & Hh)|(st1 & Hh & Hbad)]];
    rewrite Hh in He |- *; cbn [final_state] in He; destruct He as (_ & Hs & _).
  - unfold sendResponse, set_Response. unfold_io. unfold_M. cbn [Response].
    destruct (env_write w (iter st1) _).
    + split; [auto|exact Hs].
    + eexists. cbn [sent add_sent]. rewrite Hs. split; reflexivity.
  - split; [auto|exact Hs].
  - right. auto.
Qed.

(** ** Failures at startup *)

(** X12.  [main] exits with status 1 before any session starts when the
    operator gives no address, and then without having dialed; and when the
    Ollama client cannot be created, and then after it has connected: the
    connect loop has run to its end, no frame has been written and no
    iteration of the session loop has run. *)
Theorem main_startup_failures_exit :
  (forall (dial_fuel run_fuel : nat) (st : State),
     env_stdin w = "" ->
     main lib w dial_fuel run_fuel st =
     Val (Exit 1)
         (add_log {| log_level := ERROR; log_msg := "未提供有效的 WebSocket 地址";
                     log_args := [] |} (add_log banner st))) /\
  (forall (n dial_fuel run_fuel : nat) (st : State) (err : error),
     env_stdin w <> "" ->
     (forall i : nat, i < n -> env_dial w (dials st + i) <> None) ->
     env_dial w (dials st + n) = None ->
     env_client w = Some err ->
     n < dial_fuel ->
     exists st1 : State,
       main lib w dial_fuel run_fuel st =
       Val (Exit 1) (add_log (error_entry "创建Ollama客户端失败" err) st1) /\
       dials st1 = dials st + S n /\
       sleeps st1 = sleeps st ++ repeat (5 * Second)%Z n /\
       sent st1 = sent st /\
       iter st1 = iter st).
Proof.
  split.
  - intros dial_fuel run_fuel st Hin. unfold main. unfold_io. unfold_M.
    now rewrite Hin.
  - intros n dial_fuel run_fuel st err Hin Hfail Hok Hclient Hfuel.
    apply String.eqb_neq in Hin.
    destruct (connect_loop_connects w n dial_fuel (add_log banner st) Hfail Hok Hfuel)
      as (st1 & Hrun & Hdials & Hsleeps & Hiter & Hsent).
    exists st1. split; [|auto].
    unfold main. unfold_io. unfold_M. rewrite Hin. fold banner. rewrite Hrun.
    cbn. now rewrite Hclient.
Qed.

(** ** The connection is never closed *)

Lemma connect_loop_never_closes (fuel : nat) (st : State) :
  exists (connected : bool) (st' : State),
    connect_loop w fuel st = Val connected st' /\ closed st' = closed st.
Proof.
  revert st. induction fuel as [|fuel IH]; intros st.
  - exists false, st. auto.
  - destruct (env_dial w (dials st)) as [err|] eqn:Hd.
    + rewrite (connect_loop_failure _ _ _ _ Hd).
      destruct (IH (add_sleep (5 * Second)
                      (add_log (error_entry "连接失败，正在重试..." err) (add_dial st))))
        as (c & st' & Hrun & Hc).
      exists c, st'. auto.
    + rewrite (connect_loop_success _ _ _ Hd). exists true, (add_dial st). auto.
Qed.

(** X13.  The connection is closed by a panic only.  The session loop has
    no call of [Close]; the call [main] defers is skipped on every path that
    ends in [os.Exit], so after a startup failure or a session error the
    connection is as open as it was; it runs while a panic of the session
    loop unwinds [main], and then the connection is closed. *)
Theorem Close_runs_only_on_panic (dial_fuel run_fuel : nat) (st : State) :
  closed (final_state (Run lib w run_fuel st)) = closed st /\
  match main lib w dial_fuel run_fuel st with
  | Val _ st' => closed st' = closed st
  | Panicked _ st' => closed st' = true
  end.
Proof.
  split; [apply (Run_driver_trace lib w run_fuel st)|].
  unfold main. unfold_io. unfold_M.
  destruct (String.eqb (env_stdin w) ""); [reflexivity|]. fold banner.
  destruct (connect_loop_never_closes dial_fuel (add_log banner st))
    as (connected & st1 & Hrun & Hc).
  rewrite Hrun. destruct connected; cbn [negb]; [|exact Hc].
  unfold defer_Close, Close.
  destruct (env_client w) as [err|]; [exact Hc|].
  pose proof (Run_driver_trace lib w run_fuel st1) as Ht. cbv zeta in Ht.
  destruct Ht as (_ & _ & Hclosed).
  destruct (Run lib w run_fuel st1) as [[|err] st2|why st2];
    cbn [final_state] in Hclosed |- *; cbn; rewrite ?Hclosed; auto.
Qed.

End Coverage.

(** ** The further properties at concrete inputs *)

Lemma initial_cache_well_typed : cache_well_typed initial_state.
Proof.
  intros item Hlook. cbn in Hlook. rewrite lookup_empty in Hlook. discriminate.
Defined.

(** The ill typed cache is not reachable by the program, but the type
    assertion of [ListModels] is there to be hit: on it the handler panics. *)
Example foreign_cache_panics :
  Handle quiet_world ListModelHandler
    (parsed_request flat_codec list_model_plain) state_foreign_cache =
  Panicked TypeAssertion
    (add_handled ListModelHandler (parsed_request flat_codec list_model_plain)
       state_foreign_cache).
Proof. reflexivity. Qed.

(** X3 at the frame of the round trip scenario. *)
Lemma Run_panics_in_two_ways_witness :
  Run flat_codec world_r1 1 initial_state = Panicked NilDereference initial_state /\
  iter initial_state <= iter initial_state /\
  env_deadline world_r1 (iter initial_state) = None /\
  env_tick world_r1 (iter initial_state) = false /\
  ((NilDereference = NilDereference /\
    exists raw : string,
      env_read world_r1 (iter initial_state) = inl raw /\
      Exists (gjson_Get flat_codec raw "request_id") = true) \/
   (NilDereference = RepeatedRead /\
    999 <= readErrCount (conn_at world_r1 (iter initial_state)))).
Proof.
  split; [reflexivity|].
  apply (Run_panics_in_two_ways flat_codec world_r1 1 initial_state
           initial_state NilDereference initial_cache_well_typed).
  reflexivity.
Defined.

(** X4 at three [list_model] requests in a row. *)
Lemma Run_keeps_running_witness :
  exists st' : State,
    Run flat_codec world_busy 3 initial_state = Val Running st' /\
    iter st' = iter initial_state + 3 /\
    cache_well_typed st'.
Proof.
  apply (Run_keeps_running flat_codec world_busy 3 initial_state
           initial_cache_well_typed).
  - intros i Hi. reflexivity.
  - intros i Hi _. exists list_model_plain.
    destruct i as [|[|[|i]]]; [split; reflexivity ..|lia].
Defined.

(** X5 at a connection that is closed under the session. *)
Lemma read_error_is_kept_and_fatal_witness :
  (forall N : nat, N < 1000 ->
     exists st' : State,
       Run flat_codec world_closed N initial_state = Val Running st' /\
       sent st' = sent initial_state /\
       handled st' = handled initial_state /\
       logs st' =
         logs initial_state ++
         repeat (error_entry "处理消息时发生错误"
                   (WrapError "WebSocket 读取消息错误" closed_error)) N) /\
  (exists st' : State,
     Run flat_codec world_closed 1000 initial_state = Panicked RepeatedRead st' /\
     sent st' = sent initial_state /\
     handled st' = handled initial_state /\
     logs st' =
       logs initial_state ++
       repeat (error_entry "处理消息时发生错误"
                 (WrapError "WebSocket 读取消息错误" closed_error)) 999).
Proof.
  apply (read_error_is_kept_and_fatal flat_codec world_closed initial_state
           closed_error).
  - reflexivity.
  - reflexivity.
  - intros i Hi. split; reflexivity.
Defined.

(** X6 at three ticks. *)
Lemma ticks_send_heartbeats_witness :
  exists st' : State,
    Run flat_codec world_ticking 3 initial_state = Val Running st' /\
    iter st' = iter initial_state + 3 /\
    sent st' =
      sent initial_state ++
      map (fun i => heartbeat_frame flat_codec
                      (env_uuid world_ticking (iter initial_state + i)))
          (seq 0 3) /\
    issued_ids st' =
      issued_ids initial_state ++
      map (fun i => env_uuid world_ticking (iter initial_state + i)) (seq 0 3).
Proof.
  apply (ticks_send_heartbeats flat_codec world_ticking 3 initial_state).
  intros i Hi. repeat split.
Defined.

(** The ids of that run. *)
Example three_ticks_issue_three_ids :
  issued_ids (final_state (Run flat_codec world_ticking 3 initial_state)) =
  ["id-a"; "id-b"; "id-c"].
Proof. reflexivity. Qed.

(** X7 at a listing fetched at time 0: served at 60 seconds, fetched anew at
    121 seconds. *)
Lemma ListModels_serves_a_listing_for_120_seconds_witness :
  ListModels quiet_world
    (at_iter 60 (final_state (ListModels quiet_world initial_state))) =
    Val (listing [("llama3", "abc123")], None)
        (at_iter 60 (final_state (ListModels quiet_world initial_state))) /\
  list_calls
    (final_state
       (ListModels quiet_world
          (at_iter 121 (final_state (ListModels quiet_world initial_state))))) =
  S (list_calls (at_iter 121 (final_state (ListModels quiet_world initial_state)))).
Proof.
  split.
  - apply (proj1 (ListModels_serves_a_listing_for_120_seconds quiet_world
                    initial_state
                    (at_iter 60 (final_state (ListModels quiet_world initial_state)))
                    [("llama3", "abc123")] eq_refl eq_refl ltac:(vm_compute; discriminate)
                    eq_refl)).
    vm_compute. discriminate.
  - apply (proj2 (ListModels_serves_a_listing_for_120_seconds quiet_world
                    initial_state
                    (at_iter 121 (final_state (ListModels quiet_world initial_state)))
                    [("llama3", "abc123")] eq_refl eq_refl ltac:(vm_compute; discriminate)
                    eq_refl)).
    vm_compute. reflexivity.
Defined.

(** X8 at a backend that is down. *)
Lemma ListModels_failure_is_not_cached_witness :
  ListModels world_backend_down initial_state =
    Val ([], Some backend_error) (add_list_call initial_state) /\
  cache (final_state (ListModels world_backend_down initial_state)) =
    cache initial_state /\
  list_calls
    (final_state
       (ListModels world_backend_down
          (at_iter 1 (final_state (ListModels world_backend_down initial_state))))) =
  S (list_calls
       (at_iter 1 (final_state (ListModels world_backend_down initial_state)))).
Proof.
  apply (ListModels_failure_is_not_cached world_backend_down initial_state
           (at_iter 1 (final_state (ListModels world_backend_down initial_state)))
           backend_error); try reflexivity.
  vm_compute. discriminate.
Defined.

(** X9 at the [list_model] request of [world_plain]. *)
Lemma list_model_request_is_answered_witness :
  Run_body flat_codec world_plain initial_state =
    Val None
      (add_sent
         (marshal_CloudResponse flat_codec
            {| resp_Type := "client_to_server"; resp_Action := "list_model";
               resp_RequestID := "";
               resp_Data := AnyModels [{| model_name := "llama3"; status := "abc123" |}];
               resp_Status := "done" |}) state_listed) /\
  logs state_listed = logs initial_state /\ sent state_listed = sent initial_state.
Proof.
  apply (list_model_request_is_answered flat_codec world_plain initial_state
           state_listed list_model_plain); reflexivity.
Defined.

(** X10 at a chat frame that names a model and carries a message. *)
Lemma chat_request_loses_its_params_witness :
  Run_body flat_codec world_chat initial_state =
    Val None
      (add_sent
         (marshal_CloudResponse flat_codec
            {| resp_Type := "client_to_server"; resp_Action := "chat";
               resp_RequestID := ""; resp_Data := AnyChatReply "assistant" "hello";
               resp_Status := "done" |})
         (add_handled ChatHandler (parsed_request flat_codec chat_frame)
            initial_state)).
Proof.
  apply (chat_request_loses_its_params flat_codec world_chat initial_state
           chat_frame "hello"); reflexivity.
Defined.

(** The reply of that run, as it appears on the wire. *)
Example chat_reply_on_the_wire :
  sent (final_state (Run_body flat_codec world_chat initial_state)) =
  [frame "{'type':'client_to_server','action':'chat','data':{'message':{'content':'hello','role':'assistant'}},'status':'done'}"].
Proof. reflexivity. Qed.

(** X12 at an operator who gives no address, and at a client that cannot be
    created after the second dial has connected. *)
Lemma main_startup_failures_exit_witness :
  main flat_codec world_no_address 3 3 initial_state =
    Val (Exit 1)
        (add_log {| log_level := ERROR; log_msg := "未提供有效的 WebSocket 地址";
                    log_args := [] |} (add_log banner initial_state)) /\
  exists st1 : State,
    main flat_codec world_no_client 2 3 initial_state =
      Val (Exit 1)
          (add_log (error_entry "创建Ollama客户端失败"
                      (PlainError "invalid OLLAMA_HOST")) st1) /\
    dials st1 = dials initial_state + 2 /\
    sleeps st1 = sleeps initial_state ++ repeat (5 * Second)%Z 1 /\
    sent st1 = sent initial_state /\
    iter st1 = iter initial_state.
Proof.
  split.
  - apply (proj1 (main_startup_failures_exit flat_codec world_no_address)
             3 3 initial_state). reflexivity.
  - apply (proj2 (main_startup_failures_exit flat_codec world_no_client)
             1 2 3 initial_state (PlainError "invalid OLLAMA_HOST")).
    + discriminate.
    + intros i Hi. destruct i as [|i]; [discriminate|lia].
    + reflexivity.
    + reflexivity.
    + lia.
Defined.
